(** * Concerto: the metamodel converter and the typed runtime instance

    A shallow embedding of two source files of concerto-core and one of
    concerto-cli:

    - [lib/introspect/metamodel.js]: the conversion of a parsed model (AST)
      into the discriminator-tagged metamodel ([Module Metamodel]);
    - [lib/model/typed.js]: the abstract base class of runtime instances
      ([Module TypedInstance]);
    - [concerto-cli/lib/commands.js]: the defaulting of the file arguments
      and the dispatch of [compile] on its target ([Module Commands]).

    JavaScript objects with a fixed set of keys are records (an optional key
    is an [option] field); the property bag of a runtime instance, whose keys
    are chosen by the caller, is a [gmap string value]. Exceptions are the
    [Throws] outcomes of an error monad. Strings are sequences of code units
    below 256. *)

From Stdlib Require Import ZArith Lia Bool Ascii String.
From Stdlib Require Import SpecFloat.
From stdpp Require Import base option list strings gmap.

Local Open Scope string_scope.

(** ** Outcomes of a call: a returned value or a thrown exception *)

Section Outcome.
Context {E : Type}.

Inductive outcome (A : Type) : Type :=
  | Returns (a : A)
  | Throws (e : E).

Definition obind {A B} (m : outcome A) (k : A -> outcome B) : outcome B :=
    match m with
    | Returns _ a => k a
    | Throws _ e => Throws _ e
    end.
End Outcome.

Arguments outcome : clear implicits.
Arguments Returns {E A} a.
Arguments Throws {E A} e.

Notation "'let!' x ':=' m 'in' k" := (obind m (fun x => k))
  (at level 10, x name, m at level 100, k at level 200,
   format "'[v' 'let!'  x  ':='  m  'in' '/' k ']'").

(** ** JavaScript helpers shared by both files *)

(** [s.startsWith(p)]. *)
Definition startsWith (p s : string) : bool := String.prefix p s.

(** Truthiness of a string: only the empty string is falsy. *)
Definition truthy_string (s : string) : bool := negb (String.eqb s "").

(** ** The metamodel converter ([lib/introspect/metamodel.js]) *)

Module Metamodel.

(** *** The parsed model (input) *)

(** Attributes the parser leaves on a node and the converter only tests for
    truthiness ([ast.array], [ast.optional], [ast.abstract]). *)
Inductive attr : Type :=
| attr_undefined
| attr_null
| attr_bool (b : bool)
| attr_string (s : string)
| attr_object.

Definition truthy (a : attr) : bool :=
  match a with
  | attr_undefined | attr_null => false
  | attr_bool b => b
  | attr_string s => truthy_string s
  | attr_object => true
  end.

Record Position : Type := { offset : N; line : N; column : N }.
Record Location : Type := { loc_start : Position; loc_end : Position }.

Record Identifier : Type := { name : string }.

(** A node of [ast.body.declarations]: a field, a relationship or an enum
    member. [id] and [propertyType] may be missing. *)
Record PropertyAst : Type := {
  p_type : string;
  p_id : option Identifier;
  p_array : attr;
  p_optional : attr;
  p_propertyType : option Identifier;
  p_location : option Location
}.

(** A declaration node. [classExtension] holds [ast.classExtension.class]. *)
Record DeclAst : Type := {
  d_type : string;
  d_id : Identifier;
  d_abstract : attr;
  d_classExtension : option Identifier;
  d_idField : option Identifier;
  d_declarations : list PropertyAst;
  d_location : option Location
}.

Record ImportAst : Type := { i_namespace : string; i_uri : option string }.

Record ModelAst : Type := {
  m_namespace : string;
  m_imports : option (list ImportAst);
  m_body : list DeclAst
}.

(** *** The metamodel (output) *)

Record TypeIdentifier : Type := { ti_class : string; ti_name : string }.

(** The object built for a property; [type] is an optional key. *)
Record FieldMeta : Type := {
  f_class : string;
  f_name : string;
  f_isArray : bool;
  f_isOptional : bool;
  f_type : option TypeIdentifier
}.

Record DeclMeta : Type := {
  c_class : string;
  c_name : string;
  c_isAbstract : bool;
  c_superType : option TypeIdentifier;
  c_identifiedByField : option string;
  c_fields : list FieldMeta
}.

Record NamespaceImport : Type := {
  n_class : string;
  n_namespace : string;
  n_uri : option string
}.

Record ModelFileMeta : Type := {
  mf_class : string;
  mf_namespace : string;
  mf_imports : option (list NamespaceImport);
  mf_declarations : option (list DeclMeta)
}.

(** *** Exceptions *)

(** The receiver [this] of a function: [undefined] (a plain call in strict
    mode) or an object, of which only the [modelFile] member is read. *)
Inductive receiver : Type :=
| this_undefined
| this_object (modelFile : receiver).

(** [TypeError reading]: the member [reading] was read from [undefined] or
    [null]. [IllegalModelException message modelFile fileLocation]: the
    exception built by [new IllegalModelException(...)] from its arguments;
    an argument that is not passed is [None]. *)
Inductive exn : Type :=
| TypeError (reading : string)
| IllegalModelException (message : string) (modelFile : receiver)
    (fileLocation : option Location).

Definition result := outcome exn.

(** [o.name] where [o] may be undefined. *)
Definition read_name (o : option Identifier) : result string :=
  match o with
  | Some i => Returns (name i)
  | None => Throws (TypeError "name")
  end.

(** [this.modelFile]. *)
Definition read_modelFile (this : receiver) : result receiver :=
  match this with
  | this_undefined => Throws (TypeError "modelFile")
  | this_object mf => Returns mf
  end.

Section Converter.
(** The message catalogue is not part of the converter: the formatter
    obtained from [Globalize('en').messageFormatter(key)], respectively
    [Globalize.messageFormatter(key)], applied to [{type: t}]. *)
Variable Globalize_en_messageFormatter : string -> string -> string.
Variable Globalize_messageFormatter : string -> string -> string.

Definition fieldToMetaModel (ast : PropertyAst) : result FieldMeta :=
  let! field_name := read_name (p_id ast) in
  let isArray := if truthy (p_array ast) then true else false in
  let isOptional := if truthy (p_optional ast) then true else false in
  let! type := read_name (p_propertyType ast) in
  let primitive (tag : string) :=
    {| f_class := tag; f_name := field_name; f_isArray := isArray;
       f_isOptional := isOptional; f_type := None |} in
  if String.eqb type "Integer" then
    Returns (primitive "concerto.metamodel.IntegerFieldDeclaration")
  else if String.eqb type "Long" then
    Returns (primitive "concerto.metamodel.LongFieldDeclaration")
  else if String.eqb type "Double" then
    Returns (primitive "concerto.metamodel.DoubleFieldDeclaration")
  else if String.eqb type "Boolean" then
    Returns (primitive "concerto.metamodel.BooleanFieldDeclaration")
  else if String.eqb type "DateTime" then
    Returns (primitive "concerto.metamodel.DateTimeFieldDeclaration")
  else if String.eqb type "String" then
    Returns (primitive "concerto.metamodel.StringFieldDeclaration")
  else
    Returns {| f_class := "concerto.metamodel.ObjectFieldDeclaration";
               f_name := field_name; f_isArray := isArray;
               f_isOptional := isOptional;
               f_type := Some {| ti_class := "concerto.metamodel.TypeIdentifier";
                                 ti_name := type |} |}.

Definition relationshipToMetaModel (ast : PropertyAst) : result FieldMeta :=
  let! type := read_name (p_propertyType ast) in
  let! rel_name := read_name (p_id ast) in
  let isArray := if truthy (p_array ast) then true else false in
  let isOptional := if truthy (p_optional ast) then true else false in
  Returns {| f_class := "concerto.metamodel.RelationshipDeclaration";
             f_name := rel_name; f_isArray := isArray;
             f_isOptional := isOptional;
             f_type := Some {| ti_class := "concerto.metamodel.TypeIdentifier";
                               ti_name := type |} |}.

Definition enumPropertyToMetaModel (ast : PropertyAst) : result FieldMeta :=
  let! prop_name := read_name (p_id ast) in
  Returns {| f_class := "concerto.metamodel.EnumFieldDeclaration";
             f_name := prop_name; f_isArray := false;
             f_isOptional := false; f_type := None |}.

(** [thing.id && thing.id.name && thing.id.name.startsWith('$')]. *)
Definition hasReservedName (thing : PropertyAst) : bool :=
  match p_id thing with
  | Some i => truthy_string (name i) && startsWith "$" (name i)
  | None => false
  end.

(** The discriminator of a declaration kind, [None] for the final [else]. *)
Definition declClass (type : string) : option string :=
  if String.eqb type "AssetDeclaration" then
    Some "concerto.metamodel.AssetDeclaration"
  else if String.eqb type "TransactionDeclaration" then
    Some "concerto.metamodel.TransactionDeclaration"
  else if String.eqb type "EventDeclaration" then
    Some "concerto.metamodel.EventDeclaration"
  else if String.eqb type "ParticipantDeclaration" then
    Some "concerto.metamodel.ParticipantDeclaration"
  else if String.eqb type "EnumDeclaration" then
    Some "concerto.metamodel.EnumDeclaration"
  else if String.eqb type "ConceptDeclaration" then
    Some "concerto.metamodel.ConceptDeclaration"
  else None.

(** One iteration of the loop over [ast.body.declarations]: the metamodel
    of [thing], to be pushed on [decl.fields]. *)
Definition propertyToMetaModel (this : receiver) (thing : PropertyAst)
  : result FieldMeta :=
  if hasReservedName thing then
    let message := "Invalid field name " +:+ from_option name "" (p_id thing) in
    let! mf := read_modelFile this in
    Throws (IllegalModelException message mf (p_location thing))
  else if String.eqb (p_type thing) "FieldDeclaration" then
    fieldToMetaModel thing
  else if String.eqb (p_type thing) "RelationshipDeclaration" then
    relationshipToMetaModel thing
  else if String.eqb (p_type thing) "EnumPropertyDeclaration" then
    enumPropertyToMetaModel thing
  else
    let message :=
      Globalize_messageFormatter "classdeclaration-process-unrecmodelelem"
        (p_type thing) in
    let! mf := read_modelFile this in
    Throws (IllegalModelException message mf (p_location thing)).

(** The loop [for (n = 0; n < declarations.length; n++)], with the fields
    pushed so far. *)
Fixpoint classFields (this : receiver) (things : list PropertyAst)
    (fields : list FieldMeta) : result (list FieldMeta) :=
  match things with
  | [] => Returns fields
  | thing :: rest =>
      let! f := propertyToMetaModel this thing in
      classFields this rest (fields ++ [f])%list
  end.

Definition declToMetaModel (this : receiver) (ast : DeclAst)
  : result DeclMeta :=
  let! class :=
    match declClass (d_type ast) with
    | Some tag => Returns tag
    | None =>
        Throws (IllegalModelException
                  (Globalize_en_messageFormatter
                     "modelfile-constructor-unrecmodelelem" (d_type ast))
                  this None)
    end in
  let isAbstract := if truthy (d_abstract ast) then true else false in
  let superType :=
    match d_classExtension ast with
    | Some c => Some {| ti_class := "concerto.metamodel.TypeIdentifier";
                        ti_name := name c |}
    | None => None
    end in
  let identifiedByField := name <$> d_idField ast in
  let! fields := classFields this (d_declarations ast) [] in
  Returns {| c_class := class; c_name := name (d_id ast);
             c_isAbstract := isAbstract; c_superType := superType;
             c_identifiedByField := identifiedByField;
             c_fields := fields |}.

(** [ast.imports.forEach(...)]: one import. *)
Definition importToMetaModel (imp : ImportAst) : NamespaceImport :=
  {| n_class := "concerto.metamodel.NamespaceImport";
     n_namespace := i_namespace imp;
     n_uri := match i_uri imp with
              | Some u => if truthy_string u then Some u else None
              | None => None
              end |}.

(** The loop over [ast.body]; [declToMetaModel(thing)] is a plain call, so
    its receiver is undefined. *)
Fixpoint modelDeclarations (body : list DeclAst) (decls : list DeclMeta)
  : result (list DeclMeta) :=
  match body with
  | [] => Returns decls
  | thing :: rest =>
      let! decl := declToMetaModel this_undefined thing in
      modelDeclarations rest (decls ++ [decl])%list
  end.

Definition astToMetaModel (ast : ModelAst) : result ModelFileMeta :=
  let imports := fmap (M := list) importToMetaModel <$> m_imports ast in
  let! decls := modelDeclarations (m_body ast) [] in
  Returns {| mf_class := "concerto.metamodel.ModelFile";
             mf_namespace := m_namespace ast;
             mf_imports := imports;
             mf_declarations :=
               if (0 <? length (m_body ast))%nat then Some decls else None |}.

End Converter.

(** The six primitive type names and the six declaration kinds. *)
Definition primitiveTypes : list string :=
  ["Integer"; "Long"; "Double"; "Boolean"; "DateTime"; "String"].

Definition declarationKinds : list string :=
  ["AssetDeclaration"; "TransactionDeclaration"; "EventDeclaration";
   "ParticipantDeclaration"; "EnumDeclaration"; "ConceptDeclaration"].

End Metamodel.

(** ** The typed instance ([lib/model/typed.js])

    An instance is the map of its own properties; the constructor stores
    its metadata in that same map. A read [this[name]] that finds no own
    property goes on to the members the instance inherits (the methods of
    the class and the members of [Object.prototype]); a store under
    [__proto__] runs the setter inherited from [Object.prototype] and
    creates no own property. The calls of one method from another
    ([this._setPropertyValue(...)], [this._getClassDeclaration()]) are the
    class's own methods: an instance on which a method has been replaced,
    or whose prototype has been replaced, is not followed further. *)

Module TypedInstance.

Local Open Scope Z_scope.

(** *** Values *)

(** A JavaScript number is an IEEE 754 double. *)
Definition number : Type := spec_float.

(** The Number value of an integer: rounded to the nearest double, ties to
    even, infinite beyond the range. *)
Definition number_of_Z (z : Z) : number := binary_normalize 53 1024 z 0 false.

Definition isWhiteSpace (c : ascii) : bool :=
  let n := N_of_ascii c in
  ((9 <=? n) && (n <=? 13) || (n =? 32) || (n =? 160))%N.

Fixpoint trimStart (s : string) : string :=
  match s with
  | String c rest => if isWhiteSpace c then trimStart rest else s
  | EmptyString => s
  end.

(** The value of a digit of a radix up to 36, letters in either case. *)
Definition digitValue (c : ascii) : option Z :=
  let n := Z.of_N (N_of_ascii c) in
  if (48 <=? n) && (n <=? 57) then Some (n - 48)
  else if (97 <=? n) && (n <=? 122) then Some (n - 87)
  else if (65 <=? n) && (n <=? 90) then Some (n - 55)
  else None.

(** The integer written by the longest prefix of radix-[R] digits of [s],
    [acc] being the digits read so far ([None]: no digit yet). *)
Fixpoint leadingDigits (R : Z) (s : string) (acc : option Z) : option Z :=
  match s with
  | String c rest =>
      match digitValue c with
      | Some d =>
          if d <? R then leadingDigits R rest (Some (R * default 0 acc + d))
          else acc
      | None => acc
      end
  | EmptyString => acc
  end.

(** The built-in [parseInt(string)] called without a radix, after
    ECMAScript: leading white space is dropped, then a sign, then a [0x] or
    [0X] prefix (which selects radix 16, otherwise 10); the longest prefix
    of digits is the result, [NaN] when it is empty. *)
Definition parseInt (s : string) : number :=
  let s1 := trimStart s in
  let '(negative, s2) :=
    match s1 with
    | String "-" rest => (true, rest)
    | String "+" rest => (false, rest)
    | _ => (false, s1)
    end in
  let '(R, s3) :=
    match s2 with
    | String "0" (String "x" rest) | String "0" (String "X" rest) => (16, rest)
    | _ => (10, s2)
    end in
  match leadingDigits R s3 None with
  | None => S754_nan
  | Some mathInt =>
      if mathInt =? 0 then S754_zero negative
      else number_of_Z (if negative then - mathInt else mathInt)
  end.

(** Modelled from the spec: the property classes of [lib/introspect]
    ([Field], the relationship and the enum member, all properties of a class
    declaration) are not among the sources. A property has a name; a field
    and a relationship name a type; a field has an optional default value in
    textual form ([getDefaultValue()] is that text or [null]). Only a
    [Field] satisfies [instanceof Field]. *)
Inductive Property : Type :=
| Field (name : string) (type : string) (defaultValue : option string)
| RelationshipDeclaration (name : string) (type : string)
| EnumValueDeclaration (name : string).


(** What an instance reads from its collaborators: the class declaration
    objects with the three methods the instance calls, the Moment library's
    zone-preserving parser, the built-in [parseFloat], and the members (as
    function objects) that the concrete sub-class of the instance adds to
    the ones of [Typed] or overrides. *)
Class Host : Type := {
  ClassDeclaration : Type;
  getFullyQualifiedName : ClassDeclaration -> string;
  getSuperTypeDeclaration : ClassDeclaration -> option ClassDeclaration;
  getProperties : ClassDeclaration -> list Property;
  Moment : Type;
  Moment_parseZone : string -> Moment;
  parseFloat : string -> number;
  subclassMember : string -> option positive
}.

(** The members of [Typed.prototype]: the constructor and the methods of the
    class, in the order of the source. *)
Definition Typed_prototype : list string :=
  ["constructor"; "_accept"; "_getModelManager"; "_getType";
   "_getFullyQualifiedType"; "_getNamespace"; "_getClassDeclaration";
   "_setPropertyValue"; "_addArrayValue"; "_assignFieldDefaults";
   "_instanceOf"; "_toJSON"].

(** The members of [Object.prototype]; all are functions but [__proto__],
    an accessor whose getter gives the prototype object. *)
Definition Object_prototype : list string :=
  ["__defineGetter__"; "__defineSetter__"; "hasOwnProperty";
   "__lookupGetter__"; "__lookupSetter__"; "isPrototypeOf";
   "propertyIsEnumerable"; "toString"; "valueOf"; "__proto__";
   "toLocaleString"].

(** The object a name of [names] stands for: its position, from [i]. *)
Fixpoint memberIndex (names : list string) (name : string) (i : positive)
  : option positive :=
  match names with
  | [] => None
  | n :: rest =>
      if String.eqb n name then Some i else memberIndex rest name (Pos.succ i)
  end.

(** Array objects live in a heap and are referred to by location. *)
Definition loc : Type := positive.

Section Typed.
Context `{host : Host}.

Inductive value : Type :=
| VUndefined
| VNull
| VBool (b : bool)
| VNum (n : number)
| VStr (s : string)
| VArray (l : loc)
| VClassDeclaration (d : ClassDeclaration)
| VMoment (m : Moment)
| VObject (o : positive).

(** [if (v)]: undefined, null, false, zero, NaN and the empty string are
    falsy, every object is truthy. *)
Definition truthy (v : value) : bool :=
  match v with
  | VUndefined | VNull => false
  | VBool b => b
  | VNum (S754_zero _) | VNum S754_nan => false
  | VNum _ => true
  | VStr s => truthy_string s
  | VArray _ | VClassDeclaration _ | VMoment _ | VObject _ => true
  end.

Inductive exn : Type :=
| TypeError (what : string)
| Error (message : string).

Definition result := outcome exn.

(** An instance is the [gmap string value] of its own properties; the heap
    is the [gmap loc (list value)] of the contents of the arrays. *)

(** What the prototype chain of an instance gives for a name: the member of
    the sub-class, else the member of [Typed.prototype] or of
    [Object.prototype]. *)
Definition inherited (propName : string) : option positive :=
  match subclassMember propName with
  | Some o => Some o
  | None => memberIndex (Typed_prototype ++ Object_prototype) propName 1
  end.

(** [this[propName]]: the own property, else the inherited member, else
    undefined. *)
Definition get (this : gmap string value) (propName : string) : value :=
  match this !! propName with
  | Some v => v
  | None =>
      match inherited propName with
      | Some o => VObject o
      | None => VUndefined
      end
  end.

(** [this[propName] = v]: an own property is created or updated, except
    under the name [__proto__] on an instance that has no own property of
    that name: there the setter of [Object.prototype] runs, which creates
    no own property. *)
Definition store (propName : string) (v : value) (this : gmap string value)
  : gmap string value :=
  if String.eqb propName "__proto__" then
    match this !! propName with
    | Some _ => <[propName := v]> this
    | None => this
    end
  else <[propName := v]> this.

(** When that setter runs on null or on an object, it replaces the
    prototype of the instance. *)
Definition replacesPrototype (propName : string) (v : value)
    (this : gmap string value) : bool :=
  String.eqb propName "__proto__"
  && bool_decide (this !! propName = None)
  && match v with
     | VNull | VArray _ | VClassDeclaration _ | VMoment _ | VObject _ => true
     | _ => false
     end.

(** [new Typed(modelManager, classDeclaration, ns, type)]. *)
Definition Typed (modelManager classDeclaration ns type : value)
  : gmap string value :=
  <["$type" := type]>
    (<["$namespace" := ns]>
       (<["$classDeclaration" := classDeclaration]>
          (<["$modelManager" := modelManager]> ∅))).

Definition _getModelManager (this : gmap string value) : value :=
  get this "$modelManager".

Definition _getType (this : gmap string value) : value :=
  get this "$type".

Definition _getNamespace (this : gmap string value) : value :=
  get this "$namespace".

Definition _getClassDeclaration (this : gmap string value) : value :=
  get this "$classDeclaration".

(** A method call on what [this.$classDeclaration] holds: a class
    declaration has the method, anything else does not. *)
Definition asClassDeclaration (v : value) (method : string)
  : result ClassDeclaration :=
  match v with
  | VClassDeclaration d => Returns d
  | _ => Throws (TypeError method)
  end.

Definition _getFullyQualifiedType (this : gmap string value) : result string :=
  let! d := asClassDeclaration (get this "$classDeclaration")
              "getFullyQualifiedName" in
  Returns (getFullyQualifiedName d).

Definition _setPropertyValue (propName : string) (v : value)
    (this : gmap string value) : gmap string value :=
  store propName v this.

(** [_addArrayValue]: [push] updates the array the property refers to in
    place; [[value]] allocates a new array. A truthy value that is not an
    array has no [push] (a location outside the heap denotes no array). *)
Definition _addArrayValue (propName : string) (v : value)
    (this : gmap string value) (h : gmap loc (list value))
  : result (gmap string value * gmap loc (list value)) :=
  if truthy (get this propName) then
    match get this propName with
    | VArray l =>
        match h !! l with
        | Some elements => Returns (this, <[l := (elements ++ [v])%list]> h)
        | None => Throws (TypeError "push")
        end
    | _ => Throws (TypeError "push")
    end
  else
    let l := fresh (dom h) in
    Returns (store propName (VArray l) this, <[l := [v]]> h).

(** The body of the loop of [_assignFieldDefaults] for one property. *)
Definition assignFieldDefault (field : Property) (this : gmap string value)
  : gmap string value :=
  match field with
  | Field name type (Some defaultValue) =>
      if truthy_string defaultValue then
        if String.eqb type "String" then
          _setPropertyValue name (VStr defaultValue) this
        else if String.eqb type "Integer" then
          _setPropertyValue name (VNum (parseInt defaultValue)) this
        else if String.eqb type "Long" then
          _setPropertyValue name (VNum (parseInt defaultValue)) this
        else if String.eqb type "Double" then
          _setPropertyValue name (VNum (parseFloat defaultValue)) this
        else if String.eqb type "Boolean" then
          _setPropertyValue name (VBool (String.eqb defaultValue "true")) this
        else if String.eqb type "DateTime" then
          _setPropertyValue name (VMoment (Moment_parseZone defaultValue)) this
        else
          _setPropertyValue name (VStr defaultValue) this
      else this
  | _ => this
  end.

(** The loop [for (n = 0; n < fields.length; n++)]. *)
Fixpoint assignFieldDefaults (fields : list Property)
    (this : gmap string value) : gmap string value :=
  match fields with
  | [] => this
  | field :: rest => assignFieldDefaults rest (assignFieldDefault field this)
  end.

Definition _assignFieldDefaults (this : gmap string value)
  : result (gmap string value) :=
  let! classDeclaration :=
    asClassDeclaration (_getClassDeclaration this) "getProperties" in
  Returns (assignFieldDefaults (getProperties classDeclaration) this).

(** The loop [while (superTypeDeclaration)] of [_instanceOf]; [None] when
    [fuel] iterations did not reach the end of the loop. *)
Fixpoint walkSuperTypes (fuel : nat)
    (superTypeDeclaration : option ClassDeclaration) (fqt : string)
  : option bool :=
  match fuel with
  | O => None
  | S fuel' =>
      match superTypeDeclaration with
      | None => Some false
      | Some d =>
          if String.eqb (getFullyQualifiedName d) fqt then Some true
          else walkSuperTypes fuel' (getSuperTypeDeclaration d) fqt
      end
  end.

Definition _instanceOf (fuel : nat) (this : gmap string value) (fqt : string)
  : option (result bool) :=
  match asClassDeclaration (_getClassDeclaration this)
          "getFullyQualifiedName" with
  | Throws e => Some (Throws e)
  | Returns classDeclaration =>
      if String.eqb (getFullyQualifiedName classDeclaration) fqt then
        Some (Returns true)
      else
        Returns <$>
          walkSuperTypes fuel (getSuperTypeDeclaration classDeclaration) fqt
  end.

Definition _toJSON (this : gmap string value) : result value :=
  Throws
    (Error "Use Serializer.toJSON to convert resource instances to JSON objects.").

(** The declaration reached from [s] by following
    [getSuperTypeDeclaration()] [k] times, if the chain is that long. *)
Fixpoint chainAt (k : nat) (s : option ClassDeclaration)
  : option ClassDeclaration :=
  match k with
  | O => s
  | S k' =>
      match s with
      | Some d => chainAt k' (getSuperTypeDeclaration d)
      | None => None
      end
  end.

(** [superTypeAt 0 d] is [d] itself, [superTypeAt 1 d] its super-type, and
    so on up the chain. *)
Definition superTypeAt (k : nat) (d : ClassDeclaration)
  : option ClassDeclaration :=
  chainAt k (Some d).

End Typed.


(** The type names [_assignFieldDefaults] compares a field's type with. *)
Definition primitiveTypes : list string :=
  ["String"; "Integer"; "Long"; "Double"; "Boolean"; "DateTime"].

End TypedInstance.

(** ** Sample inputs *)

Module Samples.

Import Metamodel.

Definition sampleLocation : Location :=
  {| loc_start := {| offset := 20; line := 3; column := 1 |};
     loc_end := {| offset := 58; line := 5; column := 2 |} |}.

(** [o Integer age optional] *)
Definition ageField : PropertyAst :=
  {| p_type := "FieldDeclaration"; p_id := Some {| name := "age" |};
     p_array := attr_null; p_optional := attr_string "optional";
     p_propertyType := Some {| name := "Integer" |};
     p_location := Some sampleLocation |}.

(** An enum member on which the array and optional flags are set. *)
Definition redMember : PropertyAst :=
  {| p_type := "EnumPropertyDeclaration"; p_id := Some {| name := "RED" |};
     p_array := attr_string "[]"; p_optional := attr_string "optional";
     p_propertyType := None; p_location := Some sampleLocation |}.

(** [--> Person $owner] *)
Definition reservedRelationship : PropertyAst :=
  {| p_type := "RelationshipDeclaration"; p_id := Some {| name := "$owner" |};
     p_array := attr_null; p_optional := attr_null;
     p_propertyType := Some {| name := "Person" |};
     p_location := Some sampleLocation |}.

Definition carAsset : DeclAst :=
  {| d_type := "AssetDeclaration"; d_id := {| name := "Car" |};
     d_abstract := attr_null; d_classExtension := None;
     d_idField := Some {| name := "vin" |};
     d_declarations := [ageField; reservedRelationship];
     d_location := Some sampleLocation |}.

(** A declaration of a kind the converter does not know, with a location. *)
Definition scalarDecl : DeclAst :=
  {| d_type := "ScalarDeclaration"; d_id := {| name := "SSN" |};
     d_abstract := attr_null; d_classExtension := None; d_idField := None;
     d_declarations := []; d_location := Some sampleLocation |}.

Definition carModel : ModelAst :=
  {| m_namespace := "org.acme"; m_imports := None; m_body := [carAsset] |}.

(** [concept Person identified by ssn { o String ssn  o Integer age optional
    --> Person[] friends }] and [enum Colour { o RED }]. *)
Definition personConcept : DeclAst :=
  {| d_type := "ConceptDeclaration"; d_id := {| name := "Person" |};
     d_abstract := attr_null; d_classExtension := None;
     d_idField := Some {| name := "ssn" |};
     d_declarations :=
       [ {| p_type := "FieldDeclaration"; p_id := Some {| name := "ssn" |};
            p_array := attr_null; p_optional := attr_null;
            p_propertyType := Some {| name := "String" |};
            p_location := None |};
         ageField;
         {| p_type := "RelationshipDeclaration";
            p_id := Some {| name := "friends" |};
            p_array := attr_string "[]"; p_optional := attr_null;
            p_propertyType := Some {| name := "Person" |};
            p_location := None |} ];
     d_location := None |}.

Definition colourEnum : DeclAst :=
  {| d_type := "EnumDeclaration"; d_id := {| name := "Colour" |};
     d_abstract := attr_null; d_classExtension := None; d_idField := None;
     d_declarations := [redMember]; d_location := None |}.

Definition personModel : ModelAst :=
  {| m_namespace := "org.acme";
     m_imports := Some [ {| i_namespace := "org.base";
                            i_uri := Some "https://models.example/base.cto" |} ];
     m_body := [personConcept; colourEnum] |}.

(** A message formatter that appends the kind to the message key. *)
Definition sampleFormatter (key type : string) : string :=
  key +:+ ": " +:+ type.

End Samples.

Module TypedSamples.

Import TypedInstance.

(** A chain of three declarations: Puppy extends Dog extends Animal. *)
Inductive SampleClass : Type := Animal | Dog | Puppy.

Definition sampleName (c : SampleClass) : string :=
  match c with
  | Animal => "org.acme.Animal"
  | Dog => "org.acme.Dog"
  | Puppy => "org.acme.Puppy"
  end.

Definition sampleSuper (c : SampleClass) : option SampleClass :=
  match c with
  | Animal => None
  | Dog => Some Animal
  | Puppy => Some Dog
  end.

Definition sampleProperties (c : SampleClass) : list Property :=
  match c with
  | Animal => [Field "name" "String" None]
  | _ =>
      [Field "name" "String" None;
       Field "age" "Integer" (Some "5");
       Field "vaccinated" "Boolean" (Some "true");
       RelationshipDeclaration "owner" "Person";
       Field "breed" "Breed" (Some "MIXED")]
  end.

(** In the samples a Moment is the text it was parsed from; no sample has a
    Double default, so [parseFloat] is never called; the sub-class adds no
    member. *)
#[export] Instance sampleHost : Host :=
  {| ClassDeclaration := SampleClass;
     getFullyQualifiedName := sampleName;
     getSuperTypeDeclaration := sampleSuper;
     getProperties := sampleProperties;
     Moment := string;
     Moment_parseZone := fun text => text;
     parseFloat := fun _ => S754_nan;
     subclassMember := fun _ => None |}.

(** [new Typed(null, <Puppy>, 'org.acme', 'Puppy')] *)
Definition puppy : gmap string value :=
  Typed VNull (VClassDeclaration Puppy) (VStr "org.acme") (VStr "Puppy").

(** The same instance after [_setPropertyValue('name', 'Rex')]. *)
Definition rex : gmap string value :=
  _setPropertyValue "name" (VStr "Rex") puppy.

End TypedSamples.

(** ** Well-formed property nodes *)

Module MetamodelInputs.

Import Metamodel.

(** The three property kinds the loop of [declToMetaModel] dispatches on. *)
Definition propertyKinds : list string :=
  ["FieldDeclaration"; "RelationshipDeclaration"; "EnumPropertyDeclaration"].

(** The nodes on which no [throw] of an iteration of [declToMetaModel] is
    reached and no member of a missing [id] or [propertyType] is read: the
    name is not reserved, the kind is one of the three, the [id] is present
    and, except for an enum member, so is the [propertyType]. *)
Definition convertible (thing : PropertyAst) : bool :=
  negb (hasReservedName thing)
  && bool_decide (is_Some (p_id thing))
  && (String.eqb (p_type thing) "FieldDeclaration"
        && bool_decide (is_Some (p_propertyType thing))
      || String.eqb (p_type thing) "RelationshipDeclaration"
        && bool_decide (is_Some (p_propertyType thing))
      || String.eqb (p_type thing) "EnumPropertyDeclaration").

End MetamodelInputs.

(** ** Repeated calls on a typed instance *)

Module TypedCalls.

Import TypedInstance.

Section Calls.
Context `{host : Host}.

(** [for (const v of values) this._addArrayValue(propName, v)]: the calls
    one after the other, stopping at the first that throws. *)
Fixpoint addArrayValues (propName : string) (values : list value)
    (this : gmap string value) (h : gmap loc (list value))
  : result (gmap string value * gmap loc (list value)) :=
  match values with
  | [] => Returns (this, h)
  | v :: rest =>
      let! st := _addArrayValue propName v this h in
      addArrayValues propName rest st.1 st.2
  end.

End Calls.

End TypedCalls.

(** ** The command line ([concerto-cli/lib/commands.js]) *)

Module Commands.

(** The value of an option in [argv]: absent, a flag, a text or a list of
    texts. *)
Inductive argval : Type :=
| arg_undefined
| arg_bool (b : bool)
| arg_string (s : string)
| arg_array (files : list string).

Definition truthy (a : argval) : bool :=
  match a with
  | arg_undefined => false
  | arg_bool b => b
  | arg_string s => truthy_string s
  | arg_array _ => true
  end.

(** The text a template literal makes of a value: an array is joined with
    commas. *)
Definition toString (a : argval) : string :=
  match a with
  | arg_undefined => "undefined"
  | arg_bool b => if b then "true" else "false"
  | arg_string s => s
  | arg_array files => String.concat "," files
  end.

(** [argv[argName]]. *)
Definition get (argv : gmap string argval) (argName : string) : argval :=
  default arg_undefined (argv !! argName).

(** The code generators [compile] can instantiate. *)
Inductive Visitor : Type :=
| GoLangVisitor
| PlantUMLVisitor
| TypescriptVisitor
| JavaVisitor
| JSONSchemaVisitor
| XmlSchemaVisitor
| GraphQLVisitor.

(** The [switch (target)] of [compile]; [None] is [visitor = null]. *)
Definition visitorFor (target : string) : option Visitor :=
  if String.eqb target "Go" then Some GoLangVisitor
  else if String.eqb target "PlantUML" then Some PlantUMLVisitor
  else if String.eqb target "Typescript" then Some TypescriptVisitor
  else if String.eqb target "Java" then Some JavaVisitor
  else if String.eqb target "JSONSchema" then Some JSONSchemaVisitor
  else if String.eqb target "XMLSchema" then Some XmlSchemaVisitor
  else if String.eqb target "GraphQL" then Some GraphQLVisitor
  else None.

(** The targets of [compile]. *)
Definition targets : list string :=
  ["metamodel"; "Go"; "PlantUML"; "Typescript"; "Java"; "JSONSchema";
   "XMLSchema"; "GraphQL"].

Section Commands.
(** The file system as [fs.existsSync] sees it, and [path.resolve('.', _)]. *)
Variable existsSync : string -> bool.
Variable path_resolve : string -> string.

(** What a collaborator of [compile] throws or rejects with. *)
Variable Failure : Type.

Inductive exn : Type :=
| Error (message : string)
| TypeError (reading : string)
| Raised (e : Failure).

Definition result := outcome exn.

(** The loop over [argv[argName]] when it is an array; [argExists] is the
    variable of that name. *)
Fixpoint allExist (files : list string) (argExists : bool) : bool :=
  match files with
  | [] => argExists
  | file :: rest =>
      allExist rest (if existsSync file && argExists then true else false)
  end.

(** [fs.existsSync(argv[argName])] for a value that is not an array: false
    for anything that is not a path. *)
Definition argExistsSync (a : argval) : bool :=
  match a with
  | arg_string s => existsSync s
  | _ => false
  end.

(** The values on which the check of [setDefaultFileArg] ends with
    [argExists] true: an existing path, or an array of existing paths. *)
Definition accepted (a : argval) : bool :=
  match a with
  | arg_string s => existsSync s
  | arg_array files => forallb existsSync files
  | _ => false
  end.

(** [setDefaultFileArg]: the messages given to [Logger.info], and the
    outcome. *)
Definition setDefaultFileArg (argv : gmap string argval)
    (argName argDefaultName : string)
    (argDefaultFun : gmap string argval -> string -> argval)
  : list string * result (gmap string argval) :=
  let '(logged, argv) :=
    if negb (truthy (get argv argName)) then
      (["Loading a default " +:+ argDefaultName +:+ " file."],
       <[argName := argDefaultFun argv argDefaultName]> argv)
    else ([], argv) in
  let argExists :=
    match get argv argName with
    | arg_array files => allExist files true
    | a => argExistsSync a
    end in
  if negb argExists then
    (logged,
     Throws (Error ("A " +:+ argDefaultName
                    +:+ " file is required. Try the --" +:+ argName
                    +:+ " flag or create a " +:+ argDefaultName +:+ " file.")))
  else (logged, Returns argv).

Definition validateValidateArgs (argv : gmap string argval)
  : list string * result (gmap string argval) :=
  let '(log1, r1) :=
    setDefaultFileArg argv "input" "input.json"
      (fun _ argDefaultName => arg_string (path_resolve argDefaultName)) in
  match r1 with
  | Throws e => (log1, Throws e)
  | Returns argv =>
      let '(log2, r2) :=
        setDefaultFileArg argv "model" "model.cto"
          (fun _ argDefaultName => arg_array [path_resolve argDefaultName]) in
      match r2 with
      | Throws e => ((log1 ++ log2)%list, Throws e)
      | Returns argv =>
          if truthy (get argv "verbose") then
            ((log1 ++ log2
              ++ ["validate " +:+ toString (get argv "input")
                  +:+ " using a model " +:+ toString (get argv "model")])%list,
             Returns argv)
          else ((log1 ++ log2)%list, Returns argv)
      end
  end.

(** The collaborators of [compile]: the loader (a rejected promise is a
    [Throws]), the model files of a manager, the metamodel of a model file
    as [JSON.stringify] prints it, the file writer and the traversal of the
    manager by a visitor. *)
Variables ModelManager ModelFile FileWriter Options : Type.
Variable loadModelManager : list string -> Options -> result ModelManager.
Variable getModelFiles : ModelManager -> list ModelFile.
Variable toMetaModel : ModelFile -> result string.
Variable newFileWriter : string -> result FileWriter.
Variable accept : ModelManager -> Visitor -> FileWriter -> result unit.

Definition compile (target : string) (ctoFiles : list string)
    (output : string) (options : Options) : result string :=
  let! modelManager := loadModelManager ctoFiles options in
  if String.eqb target "metamodel" then
    match getModelFiles modelManager with
    | lastModelFile :: _ => toMetaModel lastModelFile
    | [] => Throws (TypeError "toMetaModel")
    end
  else
    match visitorFor target with
    | Some visitor =>
        let! fileWriter := newFileWriter output in
        let! _ := accept modelManager visitor fileWriter in
        Returns ("Compiled to " +:+ target +:+ " in '" +:+ output +:+ "'.")
    | None => Returns ("Unrecognized target: " +:+ target)
    end.

End Commands.

End Commands.

(** ** More sample inputs *)

Module MoreSamples.

Import TypedInstance TypedSamples.

(** [new Typed(null, <Dog>, 'org.acme', 'Dog')] *)
Definition dog : gmap string (@value sampleHost) :=
  @Typed sampleHost VNull (@VClassDeclaration sampleHost Dog)
    (VStr "org.acme") (VStr "Dog").

(** Two declarations that extend each other. *)
Inductive LoopClass : Type := Ping | Pong.

Definition loopHost : Host :=
  {| ClassDeclaration := LoopClass;
     getFullyQualifiedName :=
       fun c => match c with Ping => "org.acme.Ping" | Pong => "org.acme.Pong" end;
     getSuperTypeDeclaration :=
       fun c => match c with Ping => Some Pong | Pong => Some Ping end;
     getProperties := fun _ => [];
     Moment := string;
     Moment_parseZone := fun text => text;
     parseFloat := fun _ => S754_nan;
     subclassMember := fun _ => None |}.

(** An instance of [Ping]. *)
Definition ping : gmap string (@value loopHost) :=
  @Typed loopHost VNull (@VClassDeclaration loopHost Ping)
    (VStr "org.acme") (VStr "Ping").



(** Collaborators of [compile] for the samples: the loader rejects an
    empty list of files, a model manager is the list of its files, and
    nothing else fails. *)
Definition sampleLoad (ctoFiles : list string) (options : unit)
  : outcome (Commands.exn string) (list string) :=
  match ctoFiles with
  | [] => Throws (Commands.Raised string "no model")
  | _ => Returns ctoFiles
  end.

(** A file system with two files, and a working directory. *)
Definition sampleFiles (file : string) : bool :=
  String.eqb file "/work/input.json" || String.eqb file "/work/model.cto".

Definition sampleResolve (file : string) : string := "/work/" +:+ file.

End MoreSamples.

Module ConverterSamples.

Import Metamodel Samples.

(** [--> Person[] friends] *)
Definition friendsRelationship : PropertyAst :=
  {| p_type := "RelationshipDeclaration"; p_id := Some {| name := "friends" |};
     p_array := attr_string "[]"; p_optional := attr_null;
     p_propertyType := Some {| name := "Person" |};
     p_location := None |}.

(** A node of a kind that is none of the three property kinds. *)
Definition mapNode : PropertyAst :=
  {| p_type := "MapDeclaration"; p_id := Some {| name := "index" |};
     p_array := attr_null; p_optional := attr_null;
     p_propertyType := None; p_location := Some sampleLocation |}.

(** A concept whose second property is [mapNode]. *)
Definition brokenConcept : DeclAst :=
  {| d_type := "ConceptDeclaration"; d_id := {| name := "Broken" |};
     d_abstract := attr_string "abstract";
     d_classExtension := Some {| name := "Person" |}; d_idField := None;
     d_declarations := [ageField; mapNode; reservedRelationship];
     d_location := Some sampleLocation |}.

Definition brokenModel : ModelAst :=
  {| m_namespace := "org.acme"; m_imports := None;
     m_body := [personConcept; brokenConcept; scalarDecl] |}.

(** An object whose [modelFile] is an object. *)
Definition modelFileOwner : receiver :=
  this_object (this_object this_undefined).

End ConverterSamples.

(** ** The metamodel converter: properties *)

Module MetamodelFacts.

Import Metamodel Samples.

Lemma truthy_string_startsWith (p s : string) :
  p <> "" -> startsWith p s = true -> truthy_string s = true.
Proof.
  unfold startsWith, truthy_string.
  destruct s as [|c s]; [|reflexivity].
  destruct p as [|a p]; [congruence|intros _ H; discriminate H].
Qed.

Lemma hasReservedName_intro (thing : PropertyAst) (i : Identifier) :
  p_id thing = Some i -> startsWith "$" (name i) = true ->
  hasReservedName thing = true.
Proof.
  intros Hid Hs. unfold hasReservedName. rewrite Hid, Hs.
  rewrite (truthy_string_startsWith "$" (name i)); [reflexivity|discriminate|assumption].
Qed.

(** C6. A field node with a name and a property type is converted to an
    object that carries the field's name and the two flags as booleans; a
    property type among the six primitive kinds gives the discriminator
    dedicated to that kind (and no [type] key), any other type name gives
    the [ObjectFieldDeclaration] discriminator with a [TypeIdentifier] of
    that name. *)
Theorem fieldToMetaModel_classifies (ast : PropertyAst) (i t : Identifier) :
  p_id ast = Some i ->
  p_propertyType ast = Some t ->
  exists field : FieldMeta,
    fieldToMetaModel ast = Returns field
    /\ f_name field = name i
    /\ f_isArray field = truthy (p_array ast)
    /\ f_isOptional field = truthy (p_optional ast)
    /\ (In (name t) primitiveTypes ->
          f_class field = "concerto.metamodel." +:+ name t +:+ "FieldDeclaration"
          /\ f_type field = None)
    /\ (~ In (name t) primitiveTypes ->
          f_class field = "concerto.metamodel.ObjectFieldDeclaration"
          /\ f_type field =
               Some {| ti_class := "concerto.metamodel.TypeIdentifier";
                       ti_name := name t |}).
Proof.
  intros Hid Ht. unfold fieldToMetaModel. rewrite Hid, Ht. simpl.
  destruct (truthy (p_array ast)), (truthy (p_optional ast));
    repeat
      match goal with
      | |- context [String.eqb (name t) ?k] =>
          destruct (String.eqb_spec (name t) k)
      end;
    (eexists; split; [reflexivity|]; simpl;
     split; [reflexivity|]; split; [reflexivity|]; split; [reflexivity|];
     unfold primitiveTypes; simpl; split; intros Hp;
     [ try (exfalso; intuition congruence);
       match goal with E : name t = _ |- _ => rewrite E end;
       split; reflexivity
     | try (exfalso; intuition congruence); split; reflexivity ]).
Qed.

(** C9. The metamodel of an enum member carries the [EnumFieldDeclaration]
    discriminator, the member's name and both flags set to false, and has
    no [type] key, whatever the array and optional flags (or the property
    type) of the node are. *)
Theorem enumPropertyToMetaModel_shape (ast : PropertyAst) (i : Identifier) :
  p_id ast = Some i ->
  enumPropertyToMetaModel ast =
    Returns {| f_class := "concerto.metamodel.EnumFieldDeclaration";
               f_name := name i; f_isArray := false; f_isOptional := false;
               f_type := None |}.
Proof.
  intros Hid. unfold enumPropertyToMetaModel. rewrite Hid. reflexivity.
Qed.

Lemma declClass_recognised (kind : string) :
  In kind declarationKinds ->
  declClass kind = Some ("concerto.metamodel." +:+ kind).
Proof.
  unfold declarationKinds. simpl.
  intros [<-|[<-|[<-|[<-|[<-|[<-|[]]]]]]]; reflexivity.
Qed.

Lemma declClass_unrecognised (kind : string) :
  ~ In kind declarationKinds -> declClass kind = None.
Proof.
  unfold declarationKinds, declClass. simpl. intros Hk.
  repeat
    match goal with
    | |- context [String.eqb kind ?k] =>
        destruct (String.eqb_spec kind k) as [->|?]
    end; try reflexivity; exfalso; intuition congruence.
Qed.

(** The conversion of [personModel], in full. *)
Example astToMetaModel_personModel :
  astToMetaModel sampleFormatter sampleFormatter personModel =
    Returns
      {| mf_class := "concerto.metamodel.ModelFile";
         mf_namespace := "org.acme";
         mf_imports :=
           Some [ {| n_class := "concerto.metamodel.NamespaceImport";
                     n_namespace := "org.base";
                     n_uri := Some "https://models.example/base.cto" |} ];
         mf_declarations :=
           Some
             [ {| c_class := "concerto.metamodel.ConceptDeclaration";
                  c_name := "Person"; c_isAbstract := false;
                  c_superType := None; c_identifiedByField := Some "ssn";
                  c_fields :=
                    [ {| f_class := "concerto.metamodel.StringFieldDeclaration";
                         f_name := "ssn"; f_isArray := false;
                         f_isOptional := false; f_type := None |};
                      {| f_class := "concerto.metamodel.IntegerFieldDeclaration";
                         f_name := "age"; f_isArray := false;
                         f_isOptional := true; f_type := None |};
                      {| f_class := "concerto.metamodel.RelationshipDeclaration";
                         f_name := "friends"; f_isArray := true;
                         f_isOptional := false;
                         f_type :=
                           Some {| ti_class := "concerto.metamodel.TypeIdentifier";
                                   ti_name := "Person" |} |} ] |};
               {| c_class := "concerto.metamodel.EnumDeclaration";
                  c_name := "Colour"; c_isAbstract := false;
                  c_superType := None; c_identifiedByField := None;
                  c_fields :=
                    [ {| f_class := "concerto.metamodel.EnumFieldDeclaration";
                         f_name := "RED"; f_isArray := false;
                         f_isOptional := false; f_type := None |} ] |} ] |}.
Proof. reflexivity. Qed.

Section Converter.
Variable fmt_en fmt : string -> string -> string.

(** The reserved-name check comes first in an iteration: its outcome does
    not depend on the kind of the property. *)
Lemma propertyToMetaModel_reserved (this : receiver) (thing : PropertyAst)
    (i : Identifier) :
  p_id thing = Some i -> startsWith "$" (name i) = true ->
  propertyToMetaModel fmt this thing =
    match this with
    | this_undefined => Throws (TypeError "modelFile")
    | this_object mf =>
        Throws (IllegalModelException ("Invalid field name " +:+ name i) mf
                  (p_location thing))
    end.
Proof.
  intros Hid Hs. unfold propertyToMetaModel.
  rewrite (hasReservedName_intro thing i Hid Hs), Hid.
  destruct this; reflexivity.
Qed.

Lemma classFields_reserved (this : receiver) (things : list PropertyAst)
    (thing : PropertyAst) (i : Identifier) :
  In thing things -> p_id thing = Some i -> startsWith "$" (name i) = true ->
  forall fields, exists e, classFields fmt this things fields = Throws e.
Proof.
  intros Hin Hid Hs.
  induction things as [|t rest IH]; [destruct Hin|].
  intros fields. simpl.
  destruct (propertyToMetaModel fmt this t) as [f|e] eqn:Ht.
  - simpl. destruct Hin as [->|Hin].
    + rewrite (propertyToMetaModel_reserved this thing i Hid Hs) in Ht.
      destruct this; discriminate Ht.
    + apply (IH Hin).
  - exists e. reflexivity.
Qed.

Lemma declToMetaModel_reserved (this : receiver) (ast : DeclAst)
    (thing : PropertyAst) (i : Identifier) :
  In thing (d_declarations ast) -> p_id thing = Some i ->
  startsWith "$" (name i) = true ->
  exists e, declToMetaModel fmt_en fmt this ast = Throws e.
Proof.
  intros Hin Hid Hs. unfold declToMetaModel.
  destruct (declClass (d_type ast)) as [tag|]; simpl; [|eauto].
  destruct (classFields_reserved this _ thing i Hin Hid Hs []) as [e ->].
  eauto.
Qed.

Lemma modelDeclarations_reserved (body : list DeclAst) (ast : DeclAst)
    (thing : PropertyAst) (i : Identifier) :
  In ast body -> In thing (d_declarations ast) -> p_id thing = Some i ->
  startsWith "$" (name i) = true ->
  forall decls, exists e, modelDeclarations fmt_en fmt body decls = Throws e.
Proof.
  intros Hast Hin Hid Hs.
  induction body as [|a rest IH]; [destruct Hast|].
  intros decls. simpl.
  destruct (declToMetaModel fmt_en fmt this_undefined a) as [d|e] eqn:Ha.
  - simpl. destruct Hast as [->|Hast].
    + destruct (declToMetaModel_reserved this_undefined ast thing i Hin Hid Hs)
        as [e He].
      rewrite He in Ha. discriminate Ha.
    + apply (IH Hast).
  - exists e. reflexivity.
Qed.

(** C4. A property node whose name begins with the reserved sigil [$] makes
    the conversion fail: the iteration that meets it throws before it looks
    at the kind of the property (so the outcome is the same for a field, a
    relationship, an enum member or anything else), the conversion of the
    declaration that contains it throws, and so does the conversion of a
    model that contains that declaration. *)
Theorem reserved_sigil_rejected (this : receiver) (ast : DeclAst)
    (thing : PropertyAst) (i : Identifier) :
  In thing (d_declarations ast) ->
  p_id thing = Some i ->
  startsWith "$" (name i) = true ->
  (exists e, declToMetaModel fmt_en fmt this ast = Throws e)
  /\ (forall kind : string,
        propertyToMetaModel fmt this
          {| p_type := kind; p_id := p_id thing; p_array := p_array thing;
             p_optional := p_optional thing;
             p_propertyType := p_propertyType thing;
             p_location := p_location thing |}
        = match this with
          | this_undefined => Throws (TypeError "modelFile")
          | this_object mf =>
              Throws (IllegalModelException ("Invalid field name " +:+ name i)
                        mf (p_location thing))
          end)
  /\ (forall model : ModelAst, In ast (m_body model) ->
        exists e, astToMetaModel fmt_en fmt model = Throws e).
Proof.
  intros Hin Hid Hs. split; [|split].
  - exact (declToMetaModel_reserved this ast thing i Hin Hid Hs).
  - intros kind.
    exact (propertyToMetaModel_reserved this
             {| p_type := kind; p_id := p_id thing; p_array := p_array thing;
                p_optional := p_optional thing;
                p_propertyType := p_propertyType thing;
                p_location := p_location thing |} i Hid Hs).
  - intros model Hast. unfold astToMetaModel.
    destruct (modelDeclarations_reserved _ ast thing i Hast Hin Hid Hs [])
      as [e ->].
    eauto.
Qed.

(** A declaration of an unrecognised kind: the exception is built from the
    formatted message and the receiver only, its location is not passed. *)
Lemma declToMetaModel_unrecognised_kind (this : receiver) (ast : DeclAst) :
  ~ In (d_type ast) declarationKinds ->
  declToMetaModel fmt_en fmt this ast =
    Throws (IllegalModelException
              (fmt_en "modelfile-constructor-unrecmodelelem" (d_type ast))
              this None).
Proof.
  intros Hk. unfold declToMetaModel.
  rewrite (declClass_unrecognised _ Hk). reflexivity.
Qed.

(** A declaration of one of the six kinds gets the discriminator of that
    kind, and is converted whenever its properties are. *)
Lemma declToMetaModel_recognised_kind (this : receiver) (ast : DeclAst) :
  In (d_type ast) declarationKinds ->
  (forall decl, declToMetaModel fmt_en fmt this ast = Returns decl ->
     c_class decl = "concerto.metamodel." +:+ d_type ast)
  /\ (forall fields,
        classFields fmt this (d_declarations ast) [] = Returns fields ->
        exists decl, declToMetaModel fmt_en fmt this ast = Returns decl
                     /\ c_fields decl = fields).
Proof.
  intros Hk. unfold declToMetaModel.
  rewrite (declClass_recognised _ Hk). simpl. split.
  - intros decl.
    destruct (classFields fmt this (d_declarations ast) []); simpl;
      intros [= <-]; reflexivity.
  - intros fields ->. simpl. eexists; split; reflexivity.
Qed.

(** C5. The declaration [scalarDecl] has an unrecognised kind and a source
    location; its conversion throws an [IllegalModelException] whose
    message is formatted from the kind name, whose second argument is the
    receiver and whose location is undefined. *)
Theorem unrecognised_kind_error_has_no_location (this : receiver) :
  d_location scalarDecl = Some sampleLocation
  /\ declToMetaModel fmt_en fmt this scalarDecl =
       Throws (IllegalModelException
                 (fmt_en "modelfile-constructor-unrecmodelelem"
                    "ScalarDeclaration")
                 this None).
Proof. split; reflexivity. Qed.

End Converter.

(** The field [ageField] is converted to an optional Integer field. *)
Lemma fieldToMetaModel_classifies_witness :
  exists field : FieldMeta,
    fieldToMetaModel ageField = Returns field
    /\ f_name field = "age"
    /\ f_isArray field = false
    /\ f_isOptional field = true
    /\ (In "Integer" primitiveTypes ->
          f_class field = "concerto.metamodel.IntegerFieldDeclaration"
          /\ f_type field = None)
    /\ (~ In "Integer" primitiveTypes ->
          f_class field = "concerto.metamodel.ObjectFieldDeclaration"
          /\ f_type field =
               Some {| ti_class := "concerto.metamodel.TypeIdentifier";
                       ti_name := "Integer" |}).
Proof.
  exact (fieldToMetaModel_classifies ageField {| name := "age" |}
           {| name := "Integer" |} eq_refl eq_refl).
Defined.

(** The flags set on [redMember] are not carried to its metamodel. *)
Lemma enumPropertyToMetaModel_shape_witness :
  enumPropertyToMetaModel redMember =
    Returns {| f_class := "concerto.metamodel.EnumFieldDeclaration";
               f_name := "RED"; f_isArray := false; f_isOptional := false;
               f_type := None |}.
Proof.
  exact (enumPropertyToMetaModel_shape redMember {| name := "RED" |} eq_refl).
Defined.

(** The asset [carAsset] holds the relationship [$owner]. *)
Lemma reserved_sigil_rejected_witness :
  (exists e, declToMetaModel sampleFormatter sampleFormatter this_undefined
               carAsset = Throws e)
  /\ (forall kind : string,
        propertyToMetaModel sampleFormatter this_undefined
          {| p_type := kind; p_id := p_id reservedRelationship;
             p_array := p_array reservedRelationship;
             p_optional := p_optional reservedRelationship;
             p_propertyType := p_propertyType reservedRelationship;
             p_location := p_location reservedRelationship |}
        = Throws (TypeError "modelFile"))
  /\ (forall model : ModelAst, In carAsset (m_body model) ->
        exists e, astToMetaModel sampleFormatter sampleFormatter model
                  = Throws e).
Proof.
  apply (reserved_sigil_rejected sampleFormatter sampleFormatter
           this_undefined carAsset reservedRelationship {| name := "$owner" |}).
  - simpl. right. left. reflexivity.
  - reflexivity.
  - reflexivity.
Defined.

End MetamodelFacts.

(** ** The typed instance: properties *)

Module TypedInstanceFacts.

Import TypedInstance TypedSamples.



(** [parseInt] on a few texts. *)
Example parseInt_samples :
  parseInt "5" = S754_finite false 5629499534213120 (-50)
  /\ parseInt "  -0x1A" = S754_finite true 7318349394477056 (-48)
  /\ parseInt "5" = number_of_Z 5
  /\ parseInt "  -0x1A" = number_of_Z (-26)
  /\ parseInt "12abc" = number_of_Z 12
  /\ parseInt "abc" = S754_nan
  /\ parseInt "-0" = S754_zero true
  /\ parseInt "9007199254740993" = number_of_Z 9007199254740992.
Proof. repeat split; reflexivity. Qed.

(** The defaults of the sample declaration, assigned to a new instance. *)
Example assignFieldDefaults_puppy :
  _assignFieldDefaults puppy =
    Returns (<["breed" := VStr "MIXED"]>
               (<["vaccinated" := VBool true]>
                  (<["age" := VNum (number_of_Z 5)]> puppy))).
Proof. reflexivity. Qed.

(** Two calls in a row: the first allocates the array, the second appends
    to it. *)
Example addArrayValue_twice :
  (let! st := _addArrayValue "toys" (VStr "ball") puppy ∅ in
   _addArrayValue "toys" (VStr "bone") st.1 st.2)
  = Returns (<["toys" := VArray 1%positive]> puppy,
             {[ 1%positive := [VStr "ball"; VStr "bone"] ]}).
Proof. reflexivity. Qed.

(** [push] works in place: a second property that refers to the same array
    sees the new element. *)
Example addArrayValue_shared_array :
  let this : gmap string value :=
    <["kennel" := VArray 7%positive]> (<["toys" := VArray 7%positive]> puppy) in
  exists h' : gmap loc (list value),
    _addArrayValue "toys" (VStr "bone") this {[ 7%positive := [VStr "ball"] ]}
    = Returns (this, h')
    /\ get this "kennel" = VArray 7%positive
    /\ h' !! 7%positive = Some [VStr "ball"; VStr "bone"].
Proof. eexists. repeat split. Qed.

Section Typed.
Context `{host : Host}.

(** *** Reads and stores *)

Lemma store_insert (this : gmap string value) (propName : string)
    (v : value) :
  propName <> "__proto__" \/ is_Some (this !! propName) ->
  store propName v this = <[propName := v]> this.
Proof.
  unfold store. destruct (String.eqb_spec propName "__proto__") as [->|_];
    [|reflexivity].
  intros [Hne|[w Hw]]; [contradiction|]. by rewrite Hw.
Qed.

Lemma store_prototype_setter (this : gmap string value) (v : value) :
  this !! "__proto__" = None -> store "__proto__" v this = this.
Proof. unfold store. simpl. by intros ->. Qed.

Lemma lookup_store_ne (this : gmap string value) (p q : string) (v : value) :
  p <> q -> store p v this !! q = this !! q.
Proof.
  intros Hpq. unfold store.
  destruct (String.eqb p "__proto__"), (this !! p);
    try reflexivity; by rewrite lookup_insert_ne.
Qed.

Lemma get_store_ne (this : gmap string value) (p q : string) (v : value) :
  p <> q -> get (store p v this) q = get this q.
Proof. intros Hpq. unfold get. by rewrite lookup_store_ne. Qed.

Lemma get_insert (this : gmap string value) (p : string) (v : value) :
  get (<[p := v]> this) p = v.
Proof. unfold get. by rewrite lookup_insert_eq. Qed.

Lemma get_insert_ne (this : gmap string value) (p q : string) (v : value) :
  p <> q -> get (<[p := v]> this) q = get this q.
Proof. intros Hpq. unfold get. by rewrite lookup_insert_ne. Qed.

(** Every member of the two prototypes is inherited, whatever the
    sub-class adds. *)
Lemma inherited_member (propName : string) :
  In propName (Typed_prototype ++ Object_prototype) ->
  is_Some (inherited propName).
Proof.
  unfold inherited. destruct (subclassMember propName) as [o|]; [eauto|].
  simpl. intros Hin.
  repeat (destruct Hin as [<-|Hin]; [eexists; reflexivity|]).
  destruct Hin.
Qed.

(** An inherited member that is not shadowed reads as an object. *)
Lemma get_inherited (this : gmap string value) (propName : string) :
  this !! propName = None ->
  In propName (Typed_prototype ++ Object_prototype) ->
  exists o, get this propName = VObject o.
Proof.
  intros Hown [o Ho]%inherited_member. unfold get. rewrite Hown, Ho. eauto.
Qed.

(** Where a read is falsy, a store creates or updates an own property. *)
Lemma store_falsy (this : gmap string value) (propName : string) (v : value) :
  truthy (get this propName) = false ->
  store propName v this = <[propName := v]> this.
Proof.
  intros Hfalsy. apply store_insert.
  destruct (String.eqb_spec propName "__proto__") as [->|Hne]; [|by left].
  right. destruct (this !! "__proto__") as [w|] eqn:Hown; [eauto|].
  destruct (get_inherited this "__proto__" Hown) as [o Ho].
  - simpl. tauto.
  - rewrite Ho in Hfalsy. discriminate Hfalsy.
Qed.

Lemma get_setPropertyValue (this : gmap string value) (propName : string)
    (v : value) :
  propName <> "__proto__" ->
  get (_setPropertyValue propName v this) propName = v.
Proof.
  intros Hne. unfold _setPropertyValue.
  rewrite store_insert by (by left). apply get_insert.
Qed.

(** C10. The metadata of an instance lives in its property bag: the
    constructor stores it under [$modelManager], [$classDeclaration],
    [$namespace] and [$type], the getters read these keys, and
    [_setPropertyValue] on such a key replaces what the constructor stored,
    so that the getter then returns the caller's value. *)
Theorem setPropertyValue_overwrites_metadata
    (modelManager classDeclaration ns type v : value) :
  let this := Typed modelManager classDeclaration ns type in
  (_getType this = type
   /\ _getClassDeclaration this = classDeclaration
   /\ _getNamespace this = ns
   /\ _getModelManager this = modelManager)
  /\ _getType (_setPropertyValue "$type" v this) = v
  /\ _getClassDeclaration (_setPropertyValue "$classDeclaration" v this) = v
  /\ _getNamespace (_setPropertyValue "$namespace" v this) = v
  /\ _getModelManager (_setPropertyValue "$modelManager" v this) = v.
Proof.
  intros this.
  split; [|repeat split; apply get_setPropertyValue; discriminate].
  unfold this, _getType, _getClassDeclaration, _getNamespace, _getModelManager,
    get, Typed.
  repeat split; by simplify_map_eq.
Qed.

(** C7. [_toJSON] throws on every instance, and the error names the
    serializer to use instead. *)
Theorem toJSON_always_throws (this : gmap string value) :
  _toJSON this =
    Throws
      (Error "Use Serializer.toJSON to convert resource instances to JSON objects.")
  /\ forall v : value, _toJSON this <> Returns v.
Proof. split; [reflexivity|discriminate]. Qed.

(** *** [_instanceOf] *)

Lemma chainAt_None (k : nat) : chainAt k None = None.
Proof. destruct k; reflexivity. Qed.

Lemma walkSuperTypes_found (fqt : string) (k : nat) :
  forall (s : option ClassDeclaration) (S : ClassDeclaration) (fuel : nat),
    chainAt k s = Some S -> getFullyQualifiedName S = fqt -> (k < fuel)%nat ->
    walkSuperTypes fuel s fqt = Some true.
Proof.
  induction k as [|k IH]; intros s S fuel Hk HS Hfuel;
    (destruct fuel as [|fuel]; [lia|]); simpl in *.
  - subst s. rewrite <- HS, String.eqb_refl. reflexivity.
  - destruct s as [d|]; [|discriminate].
    destruct (String.eqb (getFullyQualifiedName d) fqt); [reflexivity|].
    apply (IH _ S); [assumption|assumption|lia].
Qed.

Lemma walkSuperTypes_not_found (fqt : string) (n : nat) :
  forall (s : option ClassDeclaration) (fuel : nat),
    chainAt n s = None ->
    (forall k S, chainAt k s = Some S -> getFullyQualifiedName S <> fqt) ->
    (n < fuel)%nat ->
    walkSuperTypes fuel s fqt = Some false.
Proof.
  induction n as [|n IH]; intros s fuel Hn Hno Hfuel;
    (destruct fuel as [|fuel]; [lia|]); simpl in *.
  - subst s. reflexivity.
  - destruct s as [d|]; [|reflexivity].
    destruct (String.eqb_spec (getFullyQualifiedName d) fqt) as [Heq|_].
    + destruct (Hno 0%nat d eq_refl Heq).
    + apply IH; [assumption| |lia].
      intros k S Hk. apply (Hno (Datatypes.S k) S). exact Hk.
Qed.

Lemma walkSuperTypes_sound (fqt : string) (fuel : nat) :
  forall (s : option ClassDeclaration) (b : bool),
    walkSuperTypes fuel s fqt = Some b ->
    (b = true <->
     exists k S, chainAt k s = Some S /\ getFullyQualifiedName S = fqt).
Proof.
  induction fuel as [|fuel IH]; intros s b Hw; simpl in Hw; [discriminate|].
  destruct s as [d|].
  - destruct (String.eqb_spec (getFullyQualifiedName d) fqt) as [Heq|Hne].
    + injection Hw as <-. split; [|reflexivity].
      intros _. exists 0%nat, d. split; [reflexivity|assumption].
    + rewrite (IH _ _ Hw). split.
      * intros (k & S & Hk & HS). exists (Datatypes.S k), S. split; assumption.
      * intros ([|k] & S & Hk & HS); simpl in Hk.
        -- injection Hk as <-. contradiction.
        -- exists k, S. split; assumption.
  - injection Hw as <-. split; [discriminate|].
    intros (k & S & Hk & _). rewrite chainAt_None in Hk. discriminate.
Qed.

(** On a chain that never ends and never matches, the loop does not return,
    whatever the fuel. *)
Lemma walkSuperTypes_endless (fqt : string) (fuel : nat) :
  forall s : option ClassDeclaration,
    (forall k, exists S, chainAt k s = Some S
                         /\ getFullyQualifiedName S <> fqt) ->
    walkSuperTypes fuel s fqt = None.
Proof.
  induction fuel as [|fuel IH]; intros s Hs; simpl; [reflexivity|].
  destruct (Hs 0%nat) as (d & Hd & Hne). simpl in Hd. subst s.
  destruct (String.eqb_spec (getFullyQualifiedName d) fqt); [contradiction|].
  apply IH. intros k. exact (Hs (Datatypes.S k)).
Qed.

(** C1. For an instance bound to the declaration [D], [_instanceOf(fqt)]
    (i) returns true when [fqt] is the fully-qualified name of [D] or of a
    declaration reached from [D] by following [getSuperTypeDeclaration()],
    (ii) returns false when the chain ends and none of its declarations
    has that name, (iii) whenever it returns, returns true exactly when a
    declaration of the chain has that name, and (iv) returns true for the
    name of the super-type of [D]. The loop is run with [fuel]; the length
    of the chain is enough fuel. *)
Theorem instanceOf_follows_super_type_chain (this : gmap string value)
    (D : ClassDeclaration) (fqt : string) :
  _getClassDeclaration this = VClassDeclaration D ->
  (forall (k : nat) (S : ClassDeclaration),
     superTypeAt k D = Some S -> getFullyQualifiedName S = fqt ->
     forall fuel : nat, (k <= fuel)%nat ->
       _instanceOf fuel this fqt = Some (Returns true))
  /\ (forall n : nat,
        superTypeAt n D = None ->
        (forall k S, superTypeAt k D = Some S ->
                     getFullyQualifiedName S <> fqt) ->
        forall fuel : nat, (n <= fuel)%nat ->
          _instanceOf fuel this fqt = Some (Returns false))
  /\ (forall (fuel : nat) (b : bool),
        _instanceOf fuel this fqt = Some (Returns b) ->
        (b = true <->
         exists k S, superTypeAt k D = Some S
                     /\ getFullyQualifiedName S = fqt))
  /\ (forall S : ClassDeclaration,
        getSuperTypeDeclaration D = Some S ->
        forall fuel : nat, (1 <= fuel)%nat ->
          _instanceOf fuel this (getFullyQualifiedName S)
          = Some (Returns true)).
Proof.
  intros Hbound. unfold _instanceOf, superTypeAt. rewrite Hbound. simpl.
  split; [|split; [|split]].
  - intros k S Hk HS fuel Hfuel.
    destruct (String.eqb_spec (getFullyQualifiedName D) fqt) as [_|Hne];
      [reflexivity|].
    destruct k as [|k]; simpl in Hk.
    + injection Hk as <-. contradiction.
    + rewrite (walkSuperTypes_found fqt k _ S fuel Hk HS); [reflexivity|lia].
  - intros n Hn Hno fuel Hfuel.
    destruct (String.eqb_spec (getFullyQualifiedName D) fqt) as [Heq|_].
    + destruct (Hno 0%nat D eq_refl Heq).
    + destruct n as [|n]; simpl in Hn; [discriminate|].
      rewrite (walkSuperTypes_not_found fqt n); [reflexivity|assumption| |lia].
      intros k S Hk. apply (Hno (Datatypes.S k) S). exact Hk.
  - intros fuel b.
    destruct (String.eqb_spec (getFullyQualifiedName D) fqt) as [Heq|Hne].
    + intros [= <-]. split; [|reflexivity].
      intros _. exists 0%nat, D. split; [reflexivity|assumption].
    + destruct (walkSuperTypes fuel (getSuperTypeDeclaration D) fqt)
        as [b'|] eqn:Hw; simpl; [|discriminate].
      intros [= <-]. rewrite (walkSuperTypes_sound _ _ _ _ Hw). split.
      * intros (k & S & Hk & HS). exists (Datatypes.S k), S. split; assumption.
      * intros ([|k] & S & Hk & HS); simpl in Hk.
        -- injection Hk as <-. contradiction.
        -- exists k, S. split; assumption.
  - intros S HS fuel Hfuel.
    destruct (String.eqb (getFullyQualifiedName D) (getFullyQualifiedName S));
      [reflexivity|].
    rewrite (walkSuperTypes_found _ 0 _ S fuel); [reflexivity| | |lia].
    + exact HS.
    + reflexivity.
Qed.

(** *** [_assignFieldDefaults] *)






(** *** [_addArrayValue] *)

(** C8 (amended). [_addArrayValue] (i) allocates a new array holding the
    value alone and stores it in the property when reading the property
    gives a falsy value (it is neither an own property nor an inherited
    member, or it holds a falsy value), (ii) appends the value to the array
    the property refers to, in place and after its elements, when the
    property holds an array, and (iii) throws a [TypeError], changing
    nothing, when the property holds a truthy value that is not an array;
    (iv) this is so in particular for the name of a method of the class or
    of a member of [Object.prototype] that the instance does not shadow. *)
Theorem addArrayValue_creates_appends_or_throws (this : gmap string value)
    (h : gmap loc (list value)) (propName : string) (v : value) :
  (truthy (get this propName) = false ->
   exists l : loc,
     h !! l = None
     /\ _addArrayValue propName v this h
        = Returns (<[propName := VArray l]> this, <[l := [v]]> h))
  /\ (forall (l : loc) (elements : list value),
        get this propName = VArray l -> h !! l = Some elements ->
        _addArrayValue propName v this h
        = Returns (this, <[l := (elements ++ [v])%list]> h))
  /\ (truthy (get this propName) = true ->
      (forall l : loc, get this propName <> VArray l) ->
      _addArrayValue propName v this h = Throws (TypeError "push"))
  /\ (this !! propName = None ->
      In propName (Typed_prototype ++ Object_prototype) ->
      _addArrayValue propName v this h = Throws (TypeError "push")).
Proof.
  unfold _addArrayValue. split; [|split; [|split]].
  - intros Hfalsy. rewrite (store_falsy _ _ _ Hfalsy), Hfalsy.
    exists (fresh (dom h)). split; [|reflexivity].
    apply not_elem_of_dom, is_fresh.
  - intros l elements -> ->. reflexivity.
  - intros -> Hnot. destruct (get this propName); try reflexivity.
    destruct (Hnot l eq_refl).
  - intros Hown Hin. destruct (get_inherited this propName Hown Hin) as [o ->].
    reflexivity.
Qed.

End Typed.

(** *** The sample hierarchy *)

(** A puppy is an Animal (two steps up), a Dog (its super-type), and not a
    Cat (the chain ends after three declarations). *)
Lemma instanceOf_follows_super_type_chain_witness :
  _instanceOf 2 puppy "org.acme.Animal" = Some (Returns true)
  /\ _instanceOf 3 puppy "org.acme.Cat" = Some (Returns false)
  /\ _instanceOf 1 puppy "org.acme.Dog" = Some (Returns true).
Proof.
  split; [|split].
  - destruct (instanceOf_follows_super_type_chain puppy Puppy
                "org.acme.Animal" eq_refl) as (Hfound & _).
    apply (Hfound 2%nat Animal eq_refl eq_refl). lia.
  - destruct (instanceOf_follows_super_type_chain puppy Puppy
                "org.acme.Cat" eq_refl) as (_ & Hnone & _).
    apply (Hnone 3%nat eq_refl); [|lia].
    intros k [] _; discriminate.
  - destruct (instanceOf_follows_super_type_chain puppy Puppy
                "org.acme.Dog" eq_refl) as (_ & _ & _ & Hsuper).
    apply (Hsuper Dog eq_refl). lia.
Defined.




(** On the puppy, the first toy creates the array [toys]; on an instance
    whose [toys] is the array at location 7, the second toy goes after the
    first one, in that array. *)
Lemma addArrayValue_creates_appends_or_throws_witness :
  (exists l : loc,
     _addArrayValue "toys" (VStr "ball") puppy ∅
     = Returns (<["toys" := VArray l]> puppy, <[l := [VStr "ball"]]> ∅))
  /\ _addArrayValue "toys" (VStr "bone") (<["toys" := VArray 7%positive]> puppy)
       {[ 7%positive := [VStr "ball"] ]}
     = Returns (<["toys" := VArray 7%positive]> puppy,
                <[7%positive := [VStr "ball"; VStr "bone"]]>
                  {[ 7%positive := [VStr "ball"] ]}).
Proof.
  split.
  - destruct (addArrayValue_creates_appends_or_throws puppy ∅ "toys"
                (VStr "ball")) as (Hcreate & _).
    destruct (Hcreate eq_refl) as (l & _ & Hl).
    exists l. exact Hl.
  - destruct (addArrayValue_creates_appends_or_throws
                (<["toys" := VArray 7%positive]> puppy)
                {[ 7%positive := [VStr "ball"] ]} "toys" (VStr "bone"))
      as (_ & Happend & _).
    apply (Happend 7%positive [VStr "ball"]); reflexivity.
Defined.

(** C8, as stated, fails on [rex]: its property [name] holds the text
    ["Rex"], which is truthy and not an array, and the call throws instead
    of appending. It fails on [puppy] too, which has no own property
    [constructor]: the read finds the inherited member, and the call throws
    instead of creating an array. *)
Lemma addArrayValue_non_array_counterexample :
  truthy (get rex "name") = true
  /\ _addArrayValue "name" (VStr "Max") rex ∅ = Throws (TypeError "push")
  /\ ~ (exists st, _addArrayValue "name" (VStr "Max") rex ∅ = Returns st)
  /\ puppy !! "constructor" = None
  /\ _addArrayValue "constructor" (VStr "Max") puppy ∅
     = Throws (TypeError "push").
Proof.
  split; [reflexivity|]. split; [reflexivity|].
  split; [intros [st Hst]; discriminate Hst|].
  split; reflexivity.
Qed.

End TypedInstanceFacts.

(** ** The metamodel converter: further properties *)

Module MetamodelExtra.

Import Metamodel MetamodelInputs Samples ConverterSamples MetamodelFacts.

Lemma startsWith_reserved_iff (thing : PropertyAst) :
  hasReservedName thing = true <->
  exists i, p_id thing = Some i /\ startsWith "$" (name i) = true.
Proof.
  unfold hasReservedName. destruct (p_id thing) as [i|]; split.
  - intros [_ H]%andb_prop. eauto.
  - intros (j & [= <-] & H). rewrite H.
    rewrite (truthy_string_startsWith "$" (name i)); [reflexivity|discriminate|assumption].
  - discriminate.
  - intros (j & Hj & _). discriminate Hj.
Qed.

Lemma fieldToMetaModel_returns (ast : PropertyAst) (i t : Identifier) :
  p_id ast = Some i -> p_propertyType ast = Some t ->
  exists f, fieldToMetaModel ast = Returns f
            /\ f_name f = name i
            /\ In (f_class f)
                 ["concerto.metamodel.IntegerFieldDeclaration";
                  "concerto.metamodel.LongFieldDeclaration";
                  "concerto.metamodel.DoubleFieldDeclaration";
                  "concerto.metamodel.BooleanFieldDeclaration";
                  "concerto.metamodel.DateTimeFieldDeclaration";
                  "concerto.metamodel.StringFieldDeclaration";
                  "concerto.metamodel.ObjectFieldDeclaration"].
Proof.
  intros Hid Ht. unfold fieldToMetaModel. rewrite Hid, Ht. simpl.
  repeat match goal with
         | |- context [String.eqb (name t) ?k] => destruct (String.eqb (name t) k)
         end;
    (eexists; split; [reflexivity|]; split; [reflexivity|]; simpl; tauto).
Qed.

Lemma relationshipToMetaModel_returns (ast : PropertyAst) (i t : Identifier) :
  p_id ast = Some i -> p_propertyType ast = Some t ->
  exists f, relationshipToMetaModel ast = Returns f
            /\ f_name f = name i
            /\ f_class f = "concerto.metamodel.RelationshipDeclaration".
Proof.
  intros Hid Ht. unfold relationshipToMetaModel. rewrite Hid, Ht. simpl.
  eexists. repeat split.
Qed.

(** X1. A relationship node with a name and a property type is converted
    to a [RelationshipDeclaration] that refers to the type by a
    [TypeIdentifier], whatever the type name is (a primitive name is not
    treated specially), with the node's name and its two flags as
    booleans. *)
Theorem relationshipToMetaModel_shape (ast : PropertyAst) (i t : Identifier) :
  p_id ast = Some i ->
  p_propertyType ast = Some t ->
  relationshipToMetaModel ast =
    Returns {| f_class := "concerto.metamodel.RelationshipDeclaration";
               f_name := name i;
               f_isArray := truthy (p_array ast);
               f_isOptional := truthy (p_optional ast);
               f_type := Some {| ti_class := "concerto.metamodel.TypeIdentifier";
                                 ti_name := name t |} |}.
Proof.
  intros Hid Ht. unfold relationshipToMetaModel. rewrite Hid, Ht. simpl.
  destruct (truthy (p_array ast)), (truthy (p_optional ast)); reflexivity.
Qed.

(** X2. The three property converters read [ast.id.name], and the first two
    [ast.propertyType.name], without a guard: a field or a relationship
    node is converted exactly when it has both an [id] and a
    [propertyType], an enum member exactly when it has an [id], and in
    every other case the converter throws the [TypeError] of reading
    [name] from undefined. *)
Theorem property_converters_need_id_and_type (ast : PropertyAst) :
  ((exists f, fieldToMetaModel ast = Returns f) <->
   is_Some (p_id ast) /\ is_Some (p_propertyType ast))
  /\ (fieldToMetaModel ast = Throws (TypeError "name") <->
      p_id ast = None \/ p_propertyType ast = None)
  /\ ((exists f, relationshipToMetaModel ast = Returns f) <->
      is_Some (p_id ast) /\ is_Some (p_propertyType ast))
  /\ (relationshipToMetaModel ast = Throws (TypeError "name") <->
      p_id ast = None \/ p_propertyType ast = None)
  /\ ((exists f, enumPropertyToMetaModel ast = Returns f) <->
      is_Some (p_id ast))
  /\ (enumPropertyToMetaModel ast = Throws (TypeError "name") <->
      p_id ast = None).
Proof.
  assert (Hsome : forall (A : Type) (x : A), is_Some (Some x)) by eauto.
  assert (Hnone : forall A : Type, ~ is_Some (@None A))
    by (intros A [x Hx]; discriminate Hx).
  destruct (p_id ast) as [i|] eqn:Hid;
    destruct (p_propertyType ast) as [t|] eqn:Ht;
    try (destruct (fieldToMetaModel_returns ast i t Hid Ht) as (f & -> & _);
         destruct (relationshipToMetaModel_returns ast i t Hid Ht)
           as (r & -> & _));
    unfold fieldToMetaModel, relationshipToMetaModel, enumPropertyToMetaModel;
    rewrite ?Hid, ?Ht; simpl;
    split_and!; split;
    first [ solve [intros [x Hx]; discriminate Hx]
          | solve [intros [Hx|Hx]; discriminate Hx]
          | solve [intros [Hx Hy];
                   first [destruct (Hnone _ Hx) | destruct (Hnone _ Hy)]]
          | solve [intros Hx; first [discriminate Hx | destruct (Hnone _ Hx)]]
          | solve [intros; eauto] ].
Qed.

Lemma convertible_iff (thing : PropertyAst) :
  convertible thing = true <->
  hasReservedName thing = false
  /\ is_Some (p_id thing)
  /\ (p_type thing = "FieldDeclaration" /\ is_Some (p_propertyType thing)
      \/ p_type thing = "RelationshipDeclaration"
         /\ is_Some (p_propertyType thing)
      \/ p_type thing = "EnumPropertyDeclaration").
Proof.
  unfold convertible.
  destruct (hasReservedName thing); simpl; [split; [discriminate|intros [? _]; discriminate]|].
  repeat case_bool_decide; simpl;
    destruct (String.eqb_spec (p_type thing) "FieldDeclaration");
    destruct (String.eqb_spec (p_type thing) "RelationshipDeclaration");
    destruct (String.eqb_spec (p_type thing) "EnumPropertyDeclaration");
    simpl; split; try discriminate; try (intros _; tauto);
    intros (_ & ? & [[? ?]|[[? ?]|?]]); try contradiction; congruence.
Qed.

Section Converter.
Variable fmt_en fmt : string -> string -> string.

(** What an iteration that does not throw has pushed. *)
Lemma propertyToMetaModel_Returns (this : receiver) (thing : PropertyAst)
    (f : FieldMeta) :
  propertyToMetaModel fmt this thing = Returns f ->
  convertible thing = true
  /\ (exists i, p_id thing = Some i /\ f_name f = name i)
  /\ startsWith "$" (f_name f) = false
  /\ (p_type thing = "FieldDeclaration"
      /\ In (f_class f)
           ["concerto.metamodel.IntegerFieldDeclaration";
            "concerto.metamodel.LongFieldDeclaration";
            "concerto.metamodel.DoubleFieldDeclaration";
            "concerto.metamodel.BooleanFieldDeclaration";
            "concerto.metamodel.DateTimeFieldDeclaration";
            "concerto.metamodel.StringFieldDeclaration";
            "concerto.metamodel.ObjectFieldDeclaration"]
      \/ p_type thing = "RelationshipDeclaration"
         /\ f_class f = "concerto.metamodel.RelationshipDeclaration"
      \/ p_type thing = "EnumPropertyDeclaration"
         /\ f_class f = "concerto.metamodel.EnumFieldDeclaration").
Proof.
  intros Hf.
  assert (Hkey :
    hasReservedName thing = false
    /\ (exists i, p_id thing = Some i /\ f_name f = name i)
    /\ (p_type thing = "FieldDeclaration"
        /\ is_Some (p_propertyType thing)
        /\ In (f_class f)
             ["concerto.metamodel.IntegerFieldDeclaration";
              "concerto.metamodel.LongFieldDeclaration";
              "concerto.metamodel.DoubleFieldDeclaration";
              "concerto.metamodel.BooleanFieldDeclaration";
              "concerto.metamodel.DateTimeFieldDeclaration";
              "concerto.metamodel.StringFieldDeclaration";
              "concerto.metamodel.ObjectFieldDeclaration"]
        \/ p_type thing = "RelationshipDeclaration"
           /\ is_Some (p_propertyType thing)
           /\ f_class f = "concerto.metamodel.RelationshipDeclaration"
        \/ p_type thing = "EnumPropertyDeclaration"
           /\ f_class f = "concerto.metamodel.EnumFieldDeclaration")).
  { unfold propertyToMetaModel in Hf.
    destruct (hasReservedName thing) eqn:Hr;
      [destruct this; discriminate Hf|].
    split; [reflexivity|].
    destruct (String.eqb_spec (p_type thing) "FieldDeclaration") as [Hk|_];
      [|destruct (String.eqb_spec (p_type thing) "RelationshipDeclaration")
          as [Hk|_];
        [|destruct (String.eqb_spec (p_type thing) "EnumPropertyDeclaration")
            as [Hk|_]; [|destruct this; discriminate Hf]]].
    - destruct (p_id thing) as [i|] eqn:Hid;
        [|unfold fieldToMetaModel in Hf; rewrite Hid in Hf; discriminate Hf].
      destruct (p_propertyType thing) as [t|] eqn:Ht;
        [|unfold fieldToMetaModel in Hf; rewrite Hid, Ht in Hf;
          discriminate Hf].
      destruct (fieldToMetaModel_returns thing i t Hid Ht)
        as (f' & Hf' & Hname & Hclass).
      rewrite Hf' in Hf. injection Hf as <-. eauto 10.
    - destruct (p_id thing) as [i|] eqn:Hid;
        destruct (p_propertyType thing) as [t|] eqn:Ht;
        try (unfold relationshipToMetaModel in Hf; rewrite ?Hid, ?Ht in Hf;
             discriminate Hf).
      destruct (relationshipToMetaModel_returns thing i t Hid Ht)
        as (f' & Hf' & Hname & Hclass).
      rewrite Hf' in Hf. injection Hf as <-. eauto 10.
    - unfold enumPropertyToMetaModel in Hf.
      destruct (p_id thing) as [i|] eqn:Hid; [|discriminate Hf].
      injection Hf as <-. simpl. eauto 10. }
  destruct Hkey as (Hr & (i & Hid & Hname) & Hkind).
  split; [|split; [eauto|split]].
  - apply convertible_iff. split; [assumption|]. split; [eauto|].
    destruct Hkind as [(? & ? & _)|[(? & ? & _)|(? & _)]]; tauto.
  - destruct (startsWith "$" (f_name f)) eqn:Hs; [|reflexivity].
    rewrite Hname in Hs.
    assert (hasReservedName thing = true)
      by (apply startsWith_reserved_iff; eauto).
    congruence.
  - destruct Hkind as [(? & _ & ?)|[(? & _ & ?)|(? & ?)]]; tauto.
Qed.

(** A convertible node is converted, whatever the receiver. *)
Lemma propertyToMetaModel_convertible (this : receiver) (thing : PropertyAst) :
  convertible thing = true ->
  exists f, propertyToMetaModel fmt this thing = Returns f.
Proof.
  intros (Hr & [i Hid] & Hkind)%convertible_iff.
  unfold propertyToMetaModel. rewrite Hr.
  destruct Hkind as [[Hk [t Ht]]|[[Hk [t Ht]]|Hk]]; rewrite Hk; simpl.
  - destruct (fieldToMetaModel_returns thing i t Hid Ht) as (f & Hf & _). eauto.
  - destruct (relationshipToMetaModel_returns thing i t Hid Ht)
      as (f & Hf & _). eauto.
  - unfold enumPropertyToMetaModel. rewrite Hid. simpl. eauto.
Qed.

Lemma classFields_Returns (this : receiver) (things : list PropertyAst) :
  forall acc fields,
    classFields fmt this things acc = Returns fields ->
    exists pushed,
      fields = (acc ++ pushed)%list
      /\ Forall2 (fun thing f => propertyToMetaModel fmt this thing = Returns f)
           things pushed.
Proof.
  induction things as [|thing rest IH]; intros acc fields; simpl.
  - intros [= <-]. exists []. split; [by rewrite app_nil_r|constructor].
  - destruct (propertyToMetaModel fmt this thing) as [f|e] eqn:Hf; simpl;
      [|discriminate].
    intros (pushed & -> & Hrest)%IH.
    exists (f :: pushed). split; [by rewrite <- app_assoc|].
    constructor; assumption.
Qed.

Lemma classFields_Forall2 (this : receiver) (things : list PropertyAst)
    (pushed : list FieldMeta) :
  Forall2 (fun thing f => propertyToMetaModel fmt this thing = Returns f)
    things pushed ->
  forall acc, classFields fmt this things acc = Returns (acc ++ pushed)%list.
Proof.
  induction 1 as [|thing f rest pushed Hf _ IH]; intros acc; simpl.
  - by rewrite app_nil_r.
  - rewrite Hf. simpl. rewrite IH. by rewrite <- app_assoc.
Qed.

Lemma classFields_first_failure (this : receiver)
    (good rest : list PropertyAst) (bad : PropertyAst) (e : exn) :
  Forall (fun thing => convertible thing = true) good ->
  propertyToMetaModel fmt this bad = Throws e ->
  forall acc, classFields fmt this (good ++ bad :: rest) acc = Throws e.
Proof.
  intros Hgood Hbad. induction Hgood as [|thing good Hthing _ IH];
    intros acc; simpl.
  - rewrite Hbad. reflexivity.
  - destruct (propertyToMetaModel_convertible this thing Hthing) as [f ->].
    simpl. apply IH.
Qed.

Lemma propertyToMetaModel_not_convertible (this : receiver)
    (thing : PropertyAst) :
  convertible thing = false ->
  exists e, propertyToMetaModel fmt this thing = Throws e.
Proof.
  intros Hc. destruct (propertyToMetaModel fmt this thing) as [f|e] eqn:Hf;
    [|eauto].
  apply propertyToMetaModel_Returns in Hf as [Hf _]. congruence.
Qed.

Lemma declToMetaModel_Returns_iff (this : receiver) (ast : DeclAst) :
  (exists decl, declToMetaModel fmt_en fmt this ast = Returns decl) <->
  In (d_type ast) declarationKinds
  /\ Forall (fun thing => convertible thing = true) (d_declarations ast).
Proof.
  unfold declToMetaModel. split.
  - intros [decl Hdecl].
    destruct (declClass (d_type ast)) as [tag|] eqn:Htag; [|discriminate Hdecl].
    split.
    + destruct (in_dec String.string_dec (d_type ast) declarationKinds)
        as [Hin|Hout]; [assumption|].
      rewrite (declClass_unrecognised _ Hout) in Htag. discriminate Htag.
    + simpl in Hdecl.
      destruct (classFields fmt this (d_declarations ast) []) as [fields|e]
        eqn:Hfields; [|discriminate Hdecl].
      apply classFields_Returns in Hfields as (pushed & _ & Hall).
      clear Hdecl. induction Hall as [|thing f things fs Hf _ IH];
        constructor; [|assumption].
      by apply propertyToMetaModel_Returns in Hf as [Hf _].
  - intros [Hkind Hall]. rewrite (declClass_recognised _ Hkind). simpl.
    assert (Hfields : exists pushed,
      Forall2 (fun thing f => propertyToMetaModel fmt this thing = Returns f)
        (d_declarations ast) pushed).
    { induction Hall as [|thing things Hthing _ [pushed IH]].
      - exists []. constructor.
      - destruct (propertyToMetaModel_convertible this thing Hthing) as [f Hf].
        exists (f :: pushed). constructor; assumption. }
    destruct Hfields as [pushed Hpushed].
    rewrite (classFields_Forall2 this _ _ Hpushed []). simpl. eauto.
Qed.

(** X3. Whether a declaration is converted does not depend on the receiver:
    [declToMetaModel] returns a declaration exactly when the kind is one of
    the six and every property node is convertible (no reserved name, one
    of the three property kinds, an [id], and a [propertyType] unless it is
    an enum member). *)
Theorem declToMetaModel_succeeds_iff (this : receiver) (ast : DeclAst) :
  (exists decl, declToMetaModel fmt_en fmt this ast = Returns decl) <->
  In (d_type ast) declarationKinds
  /\ Forall (fun thing => convertible thing = true) (d_declarations ast).
Proof. exact (declToMetaModel_Returns_iff this ast). Qed.

(** X4. The head of a converted declaration: the discriminator is
    [concerto.metamodel.] followed by the kind of the node (one of the six),
    the name is the node's, [isAbstract] is the truthiness of the node's
    flag, [superType] is present exactly when the node extends a class and
    then names it, and [identifiedByField] is present exactly when the node
    has an identifying field and then is its name. *)
Theorem declToMetaModel_head (this : receiver) (ast : DeclAst)
    (decl : DeclMeta) :
  declToMetaModel fmt_en fmt this ast = Returns decl ->
  In (d_type ast) declarationKinds
  /\ c_class decl = "concerto.metamodel." +:+ d_type ast
  /\ c_name decl = name (d_id ast)
  /\ c_isAbstract decl = truthy (d_abstract ast)
  /\ c_superType decl =
       match d_classExtension ast with
       | Some parent =>
           Some {| ti_class := "concerto.metamodel.TypeIdentifier";
                   ti_name := name parent |}
       | None => None
       end
  /\ c_identifiedByField decl =
       match d_idField ast with
       | Some idField => Some (name idField)
       | None => None
       end.
Proof.
  unfold declToMetaModel. intros Hdecl.
  destruct (in_dec String.string_dec (d_type ast) declarationKinds)
    as [Hin|Hout];
    [|rewrite (declClass_unrecognised _ Hout) in Hdecl; discriminate Hdecl].
  rewrite (declClass_recognised _ Hin) in Hdecl. simpl in Hdecl.
  destruct (classFields fmt this (d_declarations ast) []) as [fields|e];
    [|discriminate Hdecl].
  injection Hdecl as <-. simpl.
  destruct (truthy (d_abstract ast)), (d_idField ast); repeat split; assumption.
Qed.

(** X5. The fields of a converted declaration are the conversions of its
    property nodes, one for one and in the order of the nodes: each field has
    the name of its node, that name does not begin with [$], and its
    discriminator tells the kind of the node (a relationship, an enum
    member, or one of the seven field discriminators). *)
Theorem declToMetaModel_fields (this : receiver) (ast : DeclAst)
    (decl : DeclMeta) :
  declToMetaModel fmt_en fmt this ast = Returns decl ->
  Forall2
    (fun thing f =>
       (exists i, p_id thing = Some i /\ f_name f = name i)
       /\ startsWith "$" (f_name f) = false
       /\ (p_type thing = "FieldDeclaration"
           /\ In (f_class f)
                ["concerto.metamodel.IntegerFieldDeclaration";
                 "concerto.metamodel.LongFieldDeclaration";
                 "concerto.metamodel.DoubleFieldDeclaration";
                 "concerto.metamodel.BooleanFieldDeclaration";
                 "concerto.metamodel.DateTimeFieldDeclaration";
                 "concerto.metamodel.StringFieldDeclaration";
                 "concerto.metamodel.ObjectFieldDeclaration"]
           \/ p_type thing = "RelationshipDeclaration"
              /\ f_class f = "concerto.metamodel.RelationshipDeclaration"
           \/ p_type thing = "EnumPropertyDeclaration"
              /\ f_class f = "concerto.metamodel.EnumFieldDeclaration"))
    (d_declarations ast) (c_fields decl).
Proof.
  unfold declToMetaModel. intros Hdecl.
  destruct (declClass (d_type ast)) as [tag|]; [|discriminate Hdecl].
  simpl in Hdecl.
  destruct (classFields fmt this (d_declarations ast) []) as [fields|e]
    eqn:Hfields; [|discriminate Hdecl].
  injection Hdecl as <-. simpl.
  apply classFields_Returns in Hfields as (pushed & -> & Hall). simpl.
  induction Hall as [|thing f things fs Hf _ IH]; constructor; [|assumption].
  apply propertyToMetaModel_Returns in Hf as (_ & ? & ? & ?). auto.
Qed.

(** X6. The conversion of a declaration stops at its first property node
    that is not convertible: the declaration throws what the iteration on
    that node throws, whatever follows it. *)
Theorem declToMetaModel_first_failure (this : receiver) (ast : DeclAst)
    (good rest : list PropertyAst) (bad : PropertyAst) :
  In (d_type ast) declarationKinds ->
  d_declarations ast = (good ++ bad :: rest)%list ->
  Forall (fun thing => convertible thing = true) good ->
  convertible bad = false ->
  exists e,
    propertyToMetaModel fmt this bad = Throws e
    /\ declToMetaModel fmt_en fmt this ast = Throws e.
Proof.
  intros Hkind Hdecls Hgood Hbad.
  destruct (propertyToMetaModel_not_convertible this bad Hbad) as [e He].
  exists e. split; [assumption|].
  unfold declToMetaModel. rewrite (declClass_recognised _ Hkind), Hdecls. simpl.
  rewrite (classFields_first_failure this good rest bad e Hgood He). reflexivity.
Qed.

(** X7. A property node of an unrecognised kind whose name is not reserved:
    with an object as receiver the iteration throws an
    [IllegalModelException] built from the formatted kind, the receiver's
    model file and the location of the node; with an undefined receiver
    reading [this.modelFile] throws a [TypeError] instead. *)
Theorem propertyToMetaModel_unrecognised_kind (this : receiver)
    (thing : PropertyAst) :
  hasReservedName thing = false ->
  ~ In (p_type thing) propertyKinds ->
  propertyToMetaModel fmt this thing =
    match this with
    | this_undefined => Throws (TypeError "modelFile")
    | this_object mf =>
        Throws (IllegalModelException
                  (fmt "classdeclaration-process-unrecmodelelem" (p_type thing))
                  mf (p_location thing))
    end.
Proof.
  intros Hr Hk. unfold propertyToMetaModel. rewrite Hr.
  unfold propertyKinds in Hk. simpl in Hk.
  destruct (String.eqb_spec (p_type thing) "FieldDeclaration");
    [exfalso; intuition congruence|].
  destruct (String.eqb_spec (p_type thing) "RelationshipDeclaration");
    [exfalso; intuition congruence|].
  destruct (String.eqb_spec (p_type thing) "EnumPropertyDeclaration");
    [exfalso; intuition congruence|].
  destruct this; reflexivity.
Qed.

Lemma modelDeclarations_Returns (body : list DeclAst) :
  forall acc decls,
    modelDeclarations fmt_en fmt body acc = Returns decls ->
    exists pushed,
      decls = (acc ++ pushed)%list
      /\ Forall2
           (fun thing decl =>
              declToMetaModel fmt_en fmt this_undefined thing = Returns decl)
           body pushed.
Proof.
  induction body as [|thing rest IH]; intros acc decls; simpl.
  - intros [= <-]. exists []. split; [by rewrite app_nil_r|constructor].
  - destruct (declToMetaModel fmt_en fmt this_undefined thing) as [d|e] eqn:Hd;
      simpl; [|discriminate].
    intros (pushed & -> & Hrest)%IH.
    exists (d :: pushed). split; [by rewrite <- app_assoc|].
    constructor; assumption.
Qed.

Lemma modelDeclarations_first_failure (good rest : list DeclAst)
    (bad : DeclAst) (e : exn) :
  Forall (fun thing =>
            exists decl,
              declToMetaModel fmt_en fmt this_undefined thing = Returns decl)
    good ->
  declToMetaModel fmt_en fmt this_undefined bad = Throws e ->
  forall acc,
    modelDeclarations fmt_en fmt (good ++ bad :: rest) acc = Throws e.
Proof.
  intros Hgood Hbad. induction Hgood as [|thing good [d Hd] _ IH];
    intros acc; simpl.
  - rewrite Hbad. reflexivity.
  - rewrite Hd. simpl. apply IH.
Qed.

Lemma classFields_Throws (this : receiver) (things : list PropertyAst)
    (e : exn) :
  forall acc,
    classFields fmt this things acc = Throws e ->
    exists thing, In thing things
                  /\ propertyToMetaModel fmt this thing = Throws e.
Proof.
  induction things as [|thing rest IH]; intros acc; simpl; [discriminate|].
  destruct (propertyToMetaModel fmt this thing) as [f|e'] eqn:Hf; simpl.
  - intros (t & Hin & Ht)%IH. eauto.
  - intros [= <-]. eauto.
Qed.

Lemma modelDeclarations_Throws (body : list DeclAst) (e : exn) :
  forall acc,
    modelDeclarations fmt_en fmt body acc = Throws e ->
    exists thing, In thing body
                  /\ declToMetaModel fmt_en fmt this_undefined thing = Throws e.
Proof.
  induction body as [|thing rest IH]; intros acc; simpl; [discriminate|].
  destruct (declToMetaModel fmt_en fmt this_undefined thing) as [d|e'] eqn:Hd;
    simpl.
  - intros (t & Hin & Ht)%IH. eauto.
  - intros [= <-]. eauto.
Qed.

(** What an iteration throws when the receiver is undefined. *)
Lemma propertyToMetaModel_undefined_Throws (thing : PropertyAst) (e : exn) :
  propertyToMetaModel fmt this_undefined thing = Throws e ->
  e = TypeError "name" \/ e = TypeError "modelFile".
Proof.
  unfold propertyToMetaModel.
  destruct (hasReservedName thing); simpl; [intros [= <-]; tauto|].
  destruct (String.eqb (p_type thing) "FieldDeclaration");
    [|destruct (String.eqb (p_type thing) "RelationshipDeclaration");
      [|destruct (String.eqb (p_type thing) "EnumPropertyDeclaration");
        [|simpl; intros [= <-]; tauto]]];
    unfold fieldToMetaModel, relationshipToMetaModel, enumPropertyToMetaModel;
    destruct (p_id thing) as [i|], (p_propertyType thing) as [t|]; simpl;
    try (intros [= <-]; tauto);
    repeat match goal with
           | |- context [String.eqb (name t) ?k] =>
               destruct (String.eqb (name t) k)
           end; discriminate.
Qed.

(** X8. The metamodel of a model that is converted: the [ModelFile]
    discriminator and the namespace of the model; imports exactly when the
    model has an import list, one [NamespaceImport] for each import and in
    the same order, with the same namespace and the same URI except that
    an empty URI is dropped; declarations exactly when the body is not
    empty, one for each declaration node and in the same order, each being
    the conversion of its node with an undefined receiver. *)
Theorem astToMetaModel_output (model : ModelAst) (mf : ModelFileMeta) :
  astToMetaModel fmt_en fmt model = Returns mf ->
  mf_class mf = "concerto.metamodel.ModelFile"
  /\ mf_namespace mf = m_namespace model
  /\ match m_imports model, mf_imports mf with
     | None, None => True
     | Some imports, Some converted =>
         Forall2
           (fun imp ns =>
              n_class ns = "concerto.metamodel.NamespaceImport"
              /\ n_namespace ns = i_namespace imp
              /\ n_uri ns = match i_uri imp with
                             | Some "" => None
                             | uri => uri
                             end)
           imports converted
     | _, _ => False
     end
  /\ match m_body model, mf_declarations mf with
     | [], None => True
     | _ :: _, Some decls =>
         Forall2
           (fun thing decl =>
              declToMetaModel fmt_en fmt this_undefined thing = Returns decl)
           (m_body model) decls
     | _, _ => False
     end.
Proof.
  unfold astToMetaModel. intros Hmf.
  destruct (modelDeclarations fmt_en fmt (m_body model) []) as [decls|e]
    eqn:Hdecls; [|discriminate Hmf].
  injection Hmf as <-. simpl.
  apply modelDeclarations_Returns in Hdecls as (pushed & -> & Hall). simpl.
  split; [reflexivity|]. split; [reflexivity|]. split.
  - destruct (m_imports model) as [imports|]; simpl; [|exact I].
    induction imports as [|imp imports IH]; constructor; [|exact IH].
    unfold importToMetaModel. simpl. split; [reflexivity|].
    split; [reflexivity|].
    destruct (i_uri imp) as [[|c u]|]; reflexivity.
  - destruct (m_body model); simpl; [exact I|assumption].
Qed.

(** X9. The conversion of a model stops at its first declaration that is
    not converted: the model throws what that declaration throws, whatever
    follows it. *)
Theorem astToMetaModel_first_failure (model : ModelAst)
    (good rest : list DeclAst) (bad : DeclAst) (e : exn) :
  m_body model = (good ++ bad :: rest)%list ->
  Forall (fun thing =>
            exists decl,
              declToMetaModel fmt_en fmt this_undefined thing = Returns decl)
    good ->
  declToMetaModel fmt_en fmt this_undefined bad = Throws e ->
  astToMetaModel fmt_en fmt model = Throws e.
Proof.
  intros Hbody Hgood Hbad. unfold astToMetaModel. rewrite Hbody.
  rewrite (modelDeclarations_first_failure good rest bad e Hgood Hbad).
  reflexivity.
Qed.

(** X10. Through [astToMetaModel] the declarations are converted with an
    undefined receiver, so that no error of the converter carries a source
    location: an error is the [TypeError] of reading [name] or [modelFile]
    from undefined, or the [IllegalModelException] of an unrecognised
    declaration kind, whose model file and location are undefined. A
    reserved name or an unrecognised property kind surfaces as the
    [TypeError] on [modelFile]. *)
Theorem astToMetaModel_errors (model : ModelAst) (e : exn) :
  astToMetaModel fmt_en fmt model = Throws e ->
  e = TypeError "name"
  \/ e = TypeError "modelFile"
  \/ exists kind,
       ~ In kind declarationKinds
       /\ e = IllegalModelException
                (fmt_en "modelfile-constructor-unrecmodelelem" kind)
                this_undefined None.
Proof.
  unfold astToMetaModel. intros He.
  destruct (modelDeclarations fmt_en fmt (m_body model) []) as [decls|e']
    eqn:Hdecls; [discriminate He|].
  injection He as ->.
  apply modelDeclarations_Throws in Hdecls as (thing & _ & Hthing).
  unfold declToMetaModel in Hthing.
  destruct (in_dec String.string_dec (d_type thing) declarationKinds)
    as [Hin|Hout].
  - rewrite (declClass_recognised _ Hin) in Hthing. simpl in Hthing.
    destruct (classFields fmt this_undefined (d_declarations thing) [])
      as [fields|e'] eqn:Hfields; [discriminate Hthing|].
    injection Hthing as ->.
    apply classFields_Throws in Hfields as (p & _ & Hp).
    apply propertyToMetaModel_undefined_Throws in Hp. tauto.
  - rewrite (declClass_unrecognised _ Hout) in Hthing. simpl in Hthing.
    injection Hthing as <-. eauto.
Qed.

(** X11. A model is converted exactly when each of its declarations has
    one of the six kinds and only convertible property nodes; in
    particular a model with an empty body always is, and the imports play
    no part. *)
Theorem astToMetaModel_succeeds_iff (model : ModelAst) :
  (exists mf, astToMetaModel fmt_en fmt model = Returns mf) <->
  Forall
    (fun thing =>
       In (d_type thing) declarationKinds
       /\ Forall (fun p => convertible p = true) (d_declarations thing))
    (m_body model).
Proof.
  unfold astToMetaModel. split.
  - intros [mf Hmf].
    destruct (modelDeclarations fmt_en fmt (m_body model) []) as [decls|e]
      eqn:Hdecls; [|discriminate Hmf].
    apply modelDeclarations_Returns in Hdecls as (pushed & _ & Hall).
    clear Hmf. induction Hall as [|thing d things ds Hd _ IH];
      constructor; [|assumption].
    apply (declToMetaModel_Returns_iff this_undefined). eauto.
  - intros Hall.
    assert (Hdecls : forall acc, exists decls,
              modelDeclarations fmt_en fmt (m_body model) acc = Returns decls).
    { induction Hall as [|thing things Hthing _ IH]; intros acc; simpl;
        [eauto|].
      apply (declToMetaModel_Returns_iff this_undefined) in Hthing as [d ->].
      simpl. apply IH. }
    destruct (Hdecls []) as [decls ->]. simpl. eauto.
Qed.

End Converter.

(** *** The samples *)

Lemma relationshipToMetaModel_shape_witness :
  relationshipToMetaModel friendsRelationship =
    Returns {| f_class := "concerto.metamodel.RelationshipDeclaration";
               f_name := "friends"; f_isArray := true; f_isOptional := false;
               f_type := Some {| ti_class := "concerto.metamodel.TypeIdentifier";
                                 ti_name := "Person" |} |}.
Proof.
  exact (relationshipToMetaModel_shape friendsRelationship
           {| name := "friends" |} {| name := "Person" |} eq_refl eq_refl).
Defined.

(** An enum member has no property type: it is converted as an enum member
    and not as a field. *)
Lemma property_converters_need_id_and_type_witness :
  fieldToMetaModel redMember = Throws (TypeError "name")
  /\ exists f, enumPropertyToMetaModel redMember = Returns f.
Proof.
  destruct (property_converters_need_id_and_type redMember)
    as (_ & Hfield & _ & _ & Henum & _).
  split.
  - apply Hfield. right. reflexivity.
  - apply Henum. eexists. reflexivity.
Defined.

Lemma declToMetaModel_succeeds_iff_witness :
  (exists decl, declToMetaModel sampleFormatter sampleFormatter modelFileOwner
                  personConcept = Returns decl)
  /\ ~ (exists decl, declToMetaModel sampleFormatter sampleFormatter
                       modelFileOwner brokenConcept = Returns decl).
Proof.
  split.
  - apply (declToMetaModel_succeeds_iff sampleFormatter sampleFormatter
             modelFileOwner personConcept).
    split; [simpl; tauto|]. repeat constructor.
  - intros [_ Hall]%(declToMetaModel_succeeds_iff sampleFormatter
                       sampleFormatter modelFileOwner brokenConcept).
    inversion Hall as [|? ? _ Hrest]; subst.
    inversion Hrest as [|? ? Hmap _]; subst.
    discriminate Hmap.
Defined.

Lemma declToMetaModel_head_witness :
  exists decl,
    declToMetaModel sampleFormatter sampleFormatter this_undefined
      personConcept = Returns decl
    /\ c_class decl = "concerto.metamodel.ConceptDeclaration"
    /\ c_name decl = "Person"
    /\ c_isAbstract decl = false
    /\ c_superType decl = None
    /\ c_identifiedByField decl = Some "ssn".
Proof.
  eexists. split; [reflexivity|].
  apply (declToMetaModel_head sampleFormatter sampleFormatter this_undefined
           personConcept _ eq_refl).
Defined.

Lemma declToMetaModel_fields_witness :
  exists decl,
    declToMetaModel sampleFormatter sampleFormatter this_undefined
      personConcept = Returns decl
    /\ length (c_fields decl) = 3%nat
    /\ Forall (fun f => startsWith "$" (f_name f) = false) (c_fields decl).
Proof.
  eexists. split; [reflexivity|].
  pose proof (declToMetaModel_fields sampleFormatter sampleFormatter
                this_undefined personConcept _ eq_refl) as Hfields.
  split.
  - symmetry. exact (Forall2_length _ _ _ Hfields).
  - apply Forall2_Forall_r with (1 := Hfields).
    apply Forall_forall. intros thing _ f (_ & Hname & _). exact Hname.
Defined.

(** In [brokenConcept] the node [mapNode] comes before the reserved name:
    the error is that of [mapNode]. *)
Lemma declToMetaModel_first_failure_witness :
  exists e,
    propertyToMetaModel sampleFormatter modelFileOwner mapNode = Throws e
    /\ declToMetaModel sampleFormatter sampleFormatter modelFileOwner
         brokenConcept = Throws e.
Proof.
  apply (declToMetaModel_first_failure sampleFormatter sampleFormatter
           modelFileOwner brokenConcept [ageField] [reservedRelationship]
           mapNode).
  - simpl. tauto.
  - reflexivity.
  - repeat constructor.
  - reflexivity.
Defined.

Lemma propertyToMetaModel_unrecognised_kind_witness :
  propertyToMetaModel sampleFormatter modelFileOwner mapNode =
    Throws (IllegalModelException
              "classdeclaration-process-unrecmodelelem: MapDeclaration"
              (this_object this_undefined) (Some sampleLocation))
  /\ propertyToMetaModel sampleFormatter this_undefined mapNode =
       Throws (TypeError "modelFile").
Proof.
  split.
  - apply (propertyToMetaModel_unrecognised_kind sampleFormatter
             modelFileOwner mapNode); [reflexivity|].
    simpl. intros [H|[H|[H|[]]]]; discriminate H.
  - apply (propertyToMetaModel_unrecognised_kind sampleFormatter
             this_undefined mapNode); [reflexivity|].
    simpl. intros [H|[H|[H|[]]]]; discriminate H.
Defined.

Lemma astToMetaModel_output_witness :
  exists mf,
    astToMetaModel sampleFormatter sampleFormatter personModel = Returns mf
    /\ mf_namespace mf = "org.acme"
    /\ (length <$> mf_imports mf) = Some 1%nat
    /\ (length <$> mf_declarations mf) = Some 2%nat.
Proof.
  eexists. split; [reflexivity|].
  destruct (astToMetaModel_output sampleFormatter sampleFormatter personModel
              _ eq_refl) as (_ & Hns & Himports & Hdecls).
  split; [exact Hns|]. split; reflexivity.
Defined.

(** In [brokenModel] the second declaration fails first: the unrecognised
    kind of the third is not reached. *)
Lemma astToMetaModel_first_failure_witness :
  astToMetaModel sampleFormatter sampleFormatter brokenModel =
    Throws (TypeError "modelFile").
Proof.
  apply (astToMetaModel_first_failure sampleFormatter sampleFormatter
           brokenModel [personConcept] [scalarDecl] brokenConcept).
  - reflexivity.
  - repeat constructor. eexists. reflexivity.
  - reflexivity.
Defined.

(** The reserved name of [carModel] surfaces as a [TypeError]. *)
Lemma astToMetaModel_errors_witness :
  exists e,
    astToMetaModel sampleFormatter sampleFormatter carModel = Throws e
    /\ (e = TypeError "name"
        \/ e = TypeError "modelFile"
        \/ exists kind,
             ~ In kind declarationKinds
             /\ e = IllegalModelException
                      (sampleFormatter "modelfile-constructor-unrecmodelelem"
                         kind)
                      this_undefined None).
Proof.
  eexists. split; [reflexivity|].
  apply (astToMetaModel_errors sampleFormatter sampleFormatter carModel).
  reflexivity.
Defined.

Lemma astToMetaModel_succeeds_iff_witness :
  (exists mf, astToMetaModel sampleFormatter sampleFormatter
                {| m_namespace := "org.empty"; m_imports := None;
                   m_body := [] |} = Returns mf)
  /\ ~ (exists mf, astToMetaModel sampleFormatter sampleFormatter brokenModel
                   = Returns mf).
Proof.
  split.
  - apply (astToMetaModel_succeeds_iff sampleFormatter sampleFormatter).
    constructor.
  - intros Hall%(astToMetaModel_succeeds_iff sampleFormatter sampleFormatter).
    inversion Hall as [|? ? _ Hrest]; subst.
    inversion Hrest as [|? ? [_ Hprops] _]; subst.
    inversion Hprops as [|? ? _ Hprops']; subst.
    inversion Hprops' as [|? ? Hmap _]; subst.
    discriminate Hmap.
Defined.

End MetamodelExtra.

(** ** The typed instance: further properties *)

Module TypedInstanceExtra.

Import TypedInstance TypedCalls TypedSamples MoreSamples TypedInstanceFacts.

Section Typed.
Context `{host : Host}.

(** X12. What [_setPropertyValue] does to the reads. Under a name other
    than [__proto__] the property then reads as the value, also where the
    name was an inherited member (the own property shadows it), a second
    store replaces the first, and stores under different such names can be
    swapped. Unless the store replaces the prototype, every other name
    reads as before. Under [__proto__], on an instance without an own
    property of that name, the own properties are left as they are. *)
Theorem setPropertyValue_laws (this : gmap string value)
    (p q : string) (v w : value) :
  (p <> "__proto__" -> get (_setPropertyValue p v this) p = v)
  /\ (p <> q -> replacesPrototype p v this = false ->
      get (_setPropertyValue p v this) q = get this q)
  /\ (p <> "__proto__" ->
      _setPropertyValue p w (_setPropertyValue p v this)
      = _setPropertyValue p w this)
  /\ (p <> q -> p <> "__proto__" -> q <> "__proto__" ->
      _setPropertyValue p v (_setPropertyValue q w this)
      = _setPropertyValue q w (_setPropertyValue p v this))
  /\ (this !! "__proto__" = None ->
      _setPropertyValue "__proto__" v this = this).
Proof.
  unfold _setPropertyValue. split_and!.
  - intros Hp. by apply get_setPropertyValue.
  - intros Hpq _. by apply get_store_ne.
  - intros Hp. rewrite !(store_insert _ p) by (by left).
    apply insert_insert_eq.
  - intros Hpq Hp Hq.
    rewrite !(store_insert _ p), !(store_insert _ q) by (by left).
    by apply insert_insert_ne.
  - apply store_prototype_setter.
Qed.

Lemma chainAt_add (k j : nat) :
  forall s : option ClassDeclaration,
    chainAt (k + j) s = chainAt j (chainAt k s).
Proof.
  induction k as [|k IH]; intros s; simpl; [reflexivity|].
  destruct s as [d|]; [apply IH|]. by rewrite chainAt_None.
Qed.

Lemma walkSuperTypes_true_depth (fqt : string) (fuel : nat) :
  forall s : option ClassDeclaration,
    walkSuperTypes fuel s fqt = Some true ->
    exists j S, (j < fuel)%nat /\ chainAt j s = Some S
                /\ getFullyQualifiedName S = fqt.
Proof.
  induction fuel as [|fuel IH]; intros s; simpl; [discriminate|].
  destruct s as [d|]; [|discriminate].
  destruct (String.eqb_spec (getFullyQualifiedName d) fqt) as [Heq|_].
  - intros _. exists 0%nat, d. split; [lia|]. split; [reflexivity|assumption].
  - intros (j & S & Hj & Hchain & HS)%IH.
    exists (Datatypes.S j), S. split; [lia|]. split; assumption.
Qed.

Lemma instanceOf_found (this : gmap string value) (D S : ClassDeclaration)
    (fqt : string) (k fuel : nat) :
  _getClassDeclaration this = VClassDeclaration D ->
  superTypeAt k D = Some S -> getFullyQualifiedName S = fqt ->
  (k <= fuel)%nat ->
  _instanceOf fuel this fqt = Some (Returns true).
Proof.
  intros Hbound Hk HS Hfuel. unfold _instanceOf. rewrite Hbound. simpl.
  destruct (String.eqb_spec (getFullyQualifiedName D) fqt) as [_|Hne];
    [reflexivity|].
  destruct k as [|k]; unfold superTypeAt in Hk; simpl in Hk.
  - injection Hk as <-. contradiction.
  - rewrite (walkSuperTypes_found fqt k _ S fuel Hk HS); [reflexivity|lia].
Qed.

(** X13. The fully-qualified type of an instance bound to [D] is the name
    of [D]: it is read from the declaration, so that storing anything
    under another property ([$type] and [$namespace] included) does not
    change it, and the instance is an instance of that name without a
    single step up the chain. *)
Theorem getFullyQualifiedType_of_bound (this : gmap string value)
    (D : ClassDeclaration) :
  _getClassDeclaration this = VClassDeclaration D ->
  _getFullyQualifiedType this = Returns (getFullyQualifiedName D)
  /\ (forall (p : string) (v : value),
        p <> "$classDeclaration" ->
        _getFullyQualifiedType (_setPropertyValue p v this)
        = Returns (getFullyQualifiedName D))
  /\ (forall fuel : nat,
        _instanceOf fuel this (getFullyQualifiedName D) = Some (Returns true)).
Proof.
  intros Hbound. split_and!.
  - unfold _getFullyQualifiedType. unfold _getClassDeclaration in Hbound.
    by rewrite Hbound.
  - intros p v Hp. unfold _getFullyQualifiedType, _setPropertyValue.
    rewrite get_store_ne by done.
    unfold _getClassDeclaration in Hbound. by rewrite Hbound.
  - intros fuel. unfold _instanceOf. rewrite Hbound. simpl.
    by rewrite String.eqb_refl.
Qed.

(** X14. When [$classDeclaration] does not hold a class declaration (the
    constructor was given none, or the property was overwritten),
    [_getFullyQualifiedType], [_instanceOf] and [_assignFieldDefaults] all
    throw a [TypeError]; [_instanceOf] does so before its loop. *)
Theorem methods_need_class_declaration (this : gmap string value) :
  (forall D, _getClassDeclaration this <> VClassDeclaration D) ->
  _getFullyQualifiedType this = Throws (TypeError "getFullyQualifiedName")
  /\ (forall (fuel : nat) (fqt : string),
        _instanceOf fuel this fqt
        = Some (Throws (TypeError "getFullyQualifiedName")))
  /\ _assignFieldDefaults this = Throws (TypeError "getProperties").
Proof.
  intros Hnone.
  unfold _getFullyQualifiedType, _instanceOf, _assignFieldDefaults.
  unfold _getClassDeclaration in *.
  destruct (get this "$classDeclaration") as [| | | | | |D| |];
    try (split_and!; reflexivity).
  destruct (Hnone D eq_refl).
Qed.

(** X15. [_instanceOf] follows inheritance: if [S] is on the chain of [D],
    [k] steps up, then whatever an instance of [S] is an instance of, an
    instance of [D] is too (with [k] more iterations). *)
Theorem instanceOf_inherited (thisD thisS : gmap string value)
    (D S : ClassDeclaration) (k fuel : nat) (fqt : string) :
  _getClassDeclaration thisD = VClassDeclaration D ->
  _getClassDeclaration thisS = VClassDeclaration S ->
  superTypeAt k D = Some S ->
  _instanceOf fuel thisS fqt = Some (Returns true) ->
  forall fuel' : nat, (k + fuel <= fuel')%nat ->
    _instanceOf fuel' thisD fqt = Some (Returns true).
Proof.
  intros HD HS Hk Htrue fuel' Hfuel'.
  unfold _instanceOf in Htrue. rewrite HS in Htrue. simpl in Htrue.
  destruct (String.eqb_spec (getFullyQualifiedName S) fqt) as [Heq|Hne].
  - apply (instanceOf_found thisD D S fqt k); [assumption..|lia].
  - destruct (walkSuperTypes fuel (getSuperTypeDeclaration S) fqt) as [b|]
      eqn:Hwalk; [|discriminate Htrue].
    injection Htrue as ->.
    apply walkSuperTypes_true_depth in Hwalk as (j & S' & Hj & Hchain & HS').
    apply (instanceOf_found thisD D S' fqt (k + Datatypes.S j));
      [assumption| |assumption|lia].
    unfold superTypeAt in *. rewrite chainAt_add, Hk. exact Hchain.
Qed.

(** X16. On a chain of super-types that never ends (an inheritance cycle),
    [_instanceOf] does not return for a name that no declaration of the
    chain has: no number of iterations is enough. *)
Theorem instanceOf_endless_chain (this : gmap string value)
    (D : ClassDeclaration) (fqt : string) :
  _getClassDeclaration this = VClassDeclaration D ->
  (forall k, exists S, superTypeAt k D = Some S
                       /\ getFullyQualifiedName S <> fqt) ->
  forall fuel : nat, _instanceOf fuel this fqt = None.
Proof.
  intros Hbound Hchain fuel. unfold _instanceOf. rewrite Hbound. simpl.
  destruct (Hchain 0%nat) as (S & [= <-] & Hne).
  destruct (String.eqb_spec (getFullyQualifiedName D) fqt); [contradiction|].
  rewrite walkSuperTypes_endless; [reflexivity|].
  intros k. exact (Hchain (Datatypes.S k)).
Qed.

(** *** [_assignFieldDefaults] *)












(** *** [_addArrayValue] *)

(** X20. After a call of [_addArrayValue] that returns, the property refers
    to an array whose last element is the value; every other property holds
    what it held, and every array other than the one the property referred
    to has its elements unchanged. *)
Theorem addArrayValue_postcondition (this this' : gmap string value)
    (h h' : gmap loc (list value)) (propName : string) (v : value) :
  _addArrayValue propName v this h = Returns (this', h') ->
  (exists (l : loc) (elements : list value),
     get this' propName = VArray l
     /\ h' !! l = Some (elements ++ [v])%list)
  /\ (forall q : string, q <> propName -> get this' q = get this q)
  /\ (forall (l : loc) (elements : list value),
        h !! l = Some elements -> get this propName <> VArray l ->
        h' !! l = Some elements).
Proof.
  unfold _addArrayValue.
  destruct (truthy (get this propName)) eqn:Htruthy.
  - destruct (get this propName) as [| | | | |l| | |] eqn:Hget;
      try discriminate.
    destruct (h !! l) as [elements|] eqn:Hl; [|discriminate].
    intros [= <- <-]. split_and!.
    + exists l, elements. split; [assumption|apply lookup_insert_eq].
    + reflexivity.
    + intros l' elements' Hl' Hne. rewrite lookup_insert_ne; [assumption|].
      congruence.
  - intros [= <- <-]. split_and!.
    + exists (fresh (dom h)), []. rewrite (store_falsy _ _ _ Htruthy).
      rewrite get_insert, lookup_insert_eq. split; reflexivity.
    + intros q Hq. by apply get_store_ne.
    + intros l elements Hl _. rewrite lookup_insert_ne; [assumption|].
      intros <-. apply (is_fresh (dom h)). apply elem_of_dom. eauto.
Qed.

Lemma addArrayValues_append (propName : string) (l : loc)
    (this : gmap string value) (values : list value) :
  get this propName = VArray l ->
  forall (h : gmap loc (list value)) (elements : list value),
    h !! l = Some elements ->
    addArrayValues propName values this h
    = Returns (this, <[l := (elements ++ values)%list]> h).
Proof.
  intros Hget. induction values as [|v rest IH]; intros h elements Hl; simpl.
  - by rewrite app_nil_r, insert_id.
  - unfold _addArrayValue. rewrite Hget, Hl. simpl.
    rewrite (IH _ (elements ++ [v])%list) by apply lookup_insert_eq.
    by rewrite insert_insert_eq, <- app_assoc.
Qed.

(** X21. Adding the values of a list one after the other: on a property
    that is absent or falsy the first call allocates an array and the
    property ends up referring to an array that holds exactly the list, in
    order; on a property that refers to an array the list is appended to
    its elements. *)
Theorem addArrayValues_builds_list (this : gmap string value)
    (h : gmap loc (list value)) (propName : string) (values : list value) :
  (truthy (get this propName) = false ->
   values <> [] ->
   exists l : loc,
     h !! l = None
     /\ addArrayValues propName values this h
        = Returns (<[propName := VArray l]> this, <[l := values]> h))
  /\ (forall (l : loc) (elements : list value),
        get this propName = VArray l -> h !! l = Some elements ->
        addArrayValues propName values this h
        = Returns (this, <[l := (elements ++ values)%list]> h)).
Proof.
  split.
  - intros Hfalsy Hvalues. destruct values as [|v rest]; [done|].
    exists (fresh (dom h)). split; [apply not_elem_of_dom, is_fresh|].
    simpl. unfold _addArrayValue.
    rewrite (store_falsy _ _ _ Hfalsy), Hfalsy. simpl.
    assert (Hget : get (<[propName := VArray (fresh (dom h))]> this) propName
                   = VArray (fresh (dom h)))
      by apply get_insert.
    rewrite (addArrayValues_append propName (fresh (dom h)) _ rest Hget _ [v])
      by apply lookup_insert_eq.
    by rewrite insert_insert_eq.
  - intros l elements Hget Hl. by apply addArrayValues_append.
Qed.

End Typed.

(** *** The samples *)

(** A store under [constructor] shadows the inherited member; a store of a
    text under [__proto__] leaves the instance as it is. *)
Lemma setPropertyValue_laws_witness :
  get (_setPropertyValue "constructor" (VStr "Rex") puppy) "constructor"
  = VStr "Rex"
  /\ get (_setPropertyValue "name" (VStr "Rex") puppy) "$type"
     = VStr "Puppy"
  /\ _setPropertyValue "name" (VStr "Max")
       (_setPropertyValue "name" (VStr "Rex") puppy)
     = _setPropertyValue "name" (VStr "Max") puppy
  /\ _setPropertyValue "__proto__" (VStr "Rex") puppy = puppy.
Proof.
  split; [|split; [|split]].
  - destruct (setPropertyValue_laws puppy "constructor" "$type" (VStr "Rex")
                (VStr "Max")) as (Hget & _).
    apply Hget. discriminate.
  - destruct (setPropertyValue_laws puppy "name" "$type" (VStr "Rex")
                (VStr "Max")) as (_ & Hother & _).
    rewrite Hother; [reflexivity|discriminate|reflexivity].
  - destruct (setPropertyValue_laws puppy "name" "$type" (VStr "Rex")
                (VStr "Max")) as (_ & _ & Htwice & _).
    apply Htwice. discriminate.
  - destruct (setPropertyValue_laws puppy "__proto__" "$type" (VStr "Rex")
                (VStr "Max")) as (_ & _ & _ & _ & Hsetter).
    apply Hsetter. reflexivity.
Defined.

(** Overwriting [$type] does not change the fully-qualified type. *)
Lemma getFullyQualifiedType_of_bound_witness :
  _getFullyQualifiedType puppy = Returns "org.acme.Puppy"
  /\ _getFullyQualifiedType (_setPropertyValue "$type" (VStr "Cat") puppy)
     = Returns "org.acme.Puppy"
  /\ _instanceOf 0 puppy "org.acme.Puppy" = Some (Returns true).
Proof.
  destruct (getFullyQualifiedType_of_bound puppy Puppy eq_refl)
    as (Hown & Hset & Hinst).
  split; [exact Hown|]. split; [|exact (Hinst 0%nat)].
  apply Hset. discriminate.
Defined.

(** After [$classDeclaration] is overwritten with a text, the methods
    throw. *)
Lemma methods_need_class_declaration_witness :
  let this := _setPropertyValue "$classDeclaration" (VStr "Puppy") puppy in
  _getFullyQualifiedType this = Throws (TypeError "getFullyQualifiedName")
  /\ (forall (fuel : nat) (fqt : string),
        _instanceOf fuel this fqt
        = Some (Throws (TypeError "getFullyQualifiedName")))
  /\ _assignFieldDefaults this = Throws (TypeError "getProperties").
Proof.
  apply (methods_need_class_declaration
           (_setPropertyValue "$classDeclaration" (VStr "Puppy") puppy)).
  intros D HD. discriminate HD.
Defined.

(** A dog is an Animal after one step, so a puppy is after two. *)
Lemma instanceOf_inherited_witness :
  _instanceOf 2 puppy "org.acme.Animal" = Some (Returns true).
Proof.
  apply (@instanceOf_inherited sampleHost puppy dog Puppy Dog 1 1
           "org.acme.Animal" eq_refl eq_refl eq_refl eq_refl).
  simpl. lia.
Defined.

(** Ping and Pong extend each other: asking whether a Ping is an
    [org.acme.Other] never returns. *)
Lemma instanceOf_endless_chain_witness :
  @_instanceOf loopHost 1000 ping "org.acme.Other" = None.
Proof.
  refine (@instanceOf_endless_chain loopHost ping Ping "org.acme.Other" eq_refl
            _ 1000%nat).
  assert (Hchain : forall k d, exists S, @chainAt loopHost k (Some d) = Some S).
  { induction k as [|k IH]; intros d; simpl; [eauto|].
    destruct d; apply IH. }
  intros k. destruct (Hchain k Ping) as [S HS].
  exists S. split; [exact HS|]. destruct S; discriminate.
Defined.




Lemma addArrayValue_postcondition_witness :
  exists (l : loc) (elements : list value),
    get (<["toys" := VArray 1%positive]> puppy) "toys" = VArray l
    /\ ({[ 1%positive := [VStr "ball"] ]} : gmap loc (list value)) !! l
       = Some (elements ++ [VStr "ball"])%list.
Proof.
  destruct (addArrayValue_postcondition puppy
              (<["toys" := VArray 1%positive]> puppy)
              ∅ {[ 1%positive := [VStr "ball"] ]} "toys" (VStr "ball") eq_refl)
    as (Hlast & _).
  exact Hlast.
Defined.

Lemma addArrayValues_builds_list_witness :
  exists l : loc,
    addArrayValues "toys" [VStr "ball"; VStr "bone"] puppy ∅
    = Returns (<["toys" := VArray l]> puppy,
               <[l := [VStr "ball"; VStr "bone"]]> ∅).
Proof.
  destruct (addArrayValues_builds_list puppy ∅ "toys"
              [VStr "ball"; VStr "bone"]) as (Hnew & _).
  destruct (Hnew eq_refl) as (l & _ & Hl); [discriminate|].
  exists l. exact Hl.
Defined.

End TypedInstanceExtra.

(** ** The command line: properties *)

Module CommandsFacts.

Import Commands MoreSamples.

Section Commands.
Variable existsSync : string -> bool.
Variable path_resolve : string -> string.
Variable Failure : Type.

Lemma allExist_false (files : list string) :
  allExist existsSync files false = false.
Proof.
  induction files as [|file rest IH]; simpl; [reflexivity|].
  by rewrite andb_false_r.
Qed.

Lemma allExist_forallb (files : list string) :
  allExist existsSync files true = forallb existsSync files.
Proof.
  induction files as [|file rest IH]; simpl; [reflexivity|].
  destruct (existsSync file); simpl; [exact IH|apply allExist_false].
Qed.

Lemma setDefaultFileArg_unfold (argv : gmap string argval)
    (argName argDefaultName : string)
    (argDefaultFun : gmap string argval -> string -> argval) :
  let defaulted := negb (truthy (get argv argName)) in
  let argv' :=
    if defaulted then <[argName := argDefaultFun argv argDefaultName]> argv
    else argv in
  setDefaultFileArg existsSync Failure argv argName argDefaultName argDefaultFun
  = (if defaulted then ["Loading a default " +:+ argDefaultName +:+ " file."]
     else [],
     if accepted existsSync (get argv' argName) then Returns argv'
     else
       Throws (Error Failure
                 ("A " +:+ argDefaultName
                  +:+ " file is required. Try the --" +:+ argName
                  +:+ " flag or create a " +:+ argDefaultName +:+ " file."))).
Proof.
  unfold setDefaultFileArg.
  destruct (truthy (get argv argName)); simpl;
    match goal with
    | |- context [get ?m argName] =>
        destruct (get m argName) as [|b|s|files]; simpl;
        rewrite ?allExist_forallb;
        repeat match goal with
               | |- context [existsSync ?x] => destruct (existsSync x)
               | |- context [forallb ?f ?x] => destruct (forallb f x)
               end; reflexivity
    end.
Qed.

(** X22. [setDefaultFileArg] returns exactly when the argument, as given or
    else as computed by the default function, is an existing path or an
    array of existing paths (an empty array passes); in every other case
    it throws the error that asks for the file. *)
Theorem setDefaultFileArg_outcome (argv : gmap string argval)
    (argName argDefaultName : string)
    (argDefaultFun : gmap string argval -> string -> argval) :
  let effective :=
    if truthy (get argv argName) then get argv argName
    else argDefaultFun argv argDefaultName in
  let outcome :=
    (setDefaultFileArg existsSync Failure argv argName argDefaultName
       argDefaultFun).2 in
  ((exists argv', outcome = Returns argv') <->
   match effective with
   | arg_string file => existsSync file = true
   | arg_array files => Forall (fun file => existsSync file = true) files
   | _ => False
   end)
  /\ ((forall argv', outcome <> Returns argv') ->
      outcome =
        Throws (Error Failure
                  ("A " +:+ argDefaultName
                   +:+ " file is required. Try the --" +:+ argName
                   +:+ " flag or create a " +:+ argDefaultName +:+ " file."))).
Proof.
  intros effective outcome. subst outcome.
  rewrite setDefaultFileArg_unfold. simpl.
  assert (Heff :
    get (if negb (truthy (get argv argName))
         then <[argName := argDefaultFun argv argDefaultName]> argv
         else argv) argName = effective).
  { subst effective. destruct (truthy (get argv argName)); simpl;
      [reflexivity|]. unfold get. by rewrite lookup_insert_eq. }
  rewrite Heff. clear Heff. split.
  - assert (Hacc : accepted existsSync effective = true <->
                   match effective with
                   | arg_string file => existsSync file = true
                   | arg_array files =>
                       Forall (fun file => existsSync file = true) files
                   | _ => False
                   end).
    { destruct effective as [|b|file|files]; simpl;
        try (split; [discriminate|contradiction]); [reflexivity|].
      rewrite forallb_forall, Forall_forall.
      split; intros H x Hx; apply H; by apply list_elem_of_In. }
    rewrite <- Hacc. destruct (accepted existsSync effective); split.
    + reflexivity.
    + eauto.
    + intros [argv' Hargv']. discriminate Hargv'.
    + discriminate.
  - destruct (accepted existsSync effective); [|reflexivity].
    intros Hnever. destruct (Hnever _ eq_refl).
Qed.

(** X23. What [setDefaultFileArg] returns is the [argv] it was given, with
    one change at most: when the argument is absent or falsy it now holds
    the value of the default function, and one message was logged; when it
    is truthy nothing is stored and nothing is logged. *)
Theorem setDefaultFileArg_defaulting (argv argv' : gmap string argval)
    (argName argDefaultName : string)
    (argDefaultFun : gmap string argval -> string -> argval)
    (logged : list string) :
  setDefaultFileArg existsSync Failure argv argName argDefaultName argDefaultFun
  = (logged, Returns argv') ->
  (forall other : string, other <> argName -> get argv' other = get argv other)
  /\ (truthy (get argv argName) = true -> argv' = argv /\ logged = [])
  /\ (truthy (get argv argName) = false ->
      get argv' argName = argDefaultFun argv argDefaultName
      /\ logged = ["Loading a default " +:+ argDefaultName +:+ " file."]).
Proof.
  rewrite setDefaultFileArg_unfold. simpl.
  destruct (truthy (get argv argName)); simpl;
    match goal with
    | |- context [accepted existsSync ?a] => destruct (accepted existsSync a)
    end; intros [= <- <-]; split_and!;
    try reflexivity; try discriminate; try (split; reflexivity).
  - intros other Hother. unfold get. by rewrite lookup_insert_ne.
  - intros _. split; [|reflexivity]. unfold get. by rewrite lookup_insert_eq.
Qed.

Lemma get_if_insert (b : bool) (argv : gmap string argval)
    (argName : string) (v : argval) :
  get (if b then <[argName := v]> argv else argv) argName
  = if b then v else get argv argName.
Proof. destruct b; [|reflexivity]. unfold get. by rewrite lookup_insert_eq. Qed.

Lemma get_if_insert_other (b : bool) (argv : gmap string argval)
    (argName other : string) (v : argval) :
  other <> argName ->
  get (if b then <[argName := v]> argv else argv) other = get argv other.
Proof.
  intros Hother. destruct b; [|reflexivity].
  unfold get. by rewrite lookup_insert_ne.
Qed.

(** X24. [validateValidateArgs] checks the input first and the model
    second, each as given or else at its default place ([input.json],
    respectively the one-element list of [model.cto], resolved against the
    working directory): an input that is not accepted gives the error about
    [input.json] whatever the model is; an accepted input and a model that
    is not give the error about [model.cto]; otherwise the arguments are
    returned with the input and the model in place and everything else
    unchanged. *)
Theorem validateValidateArgs_outcome (argv : gmap string argval) :
  let input :=
    if truthy (get argv "input") then get argv "input"
    else arg_string (path_resolve "input.json") in
  let model :=
    if truthy (get argv "model") then get argv "model"
    else arg_array [path_resolve "model.cto"] in
  let outcome := (validateValidateArgs existsSync path_resolve Failure argv).2 in
  (accepted existsSync input = false ->
   outcome =
     Throws (Error Failure
               "A input.json file is required. Try the --input flag or create a input.json file."))
  /\ (accepted existsSync input = true ->
      accepted existsSync model = false ->
      outcome =
        Throws (Error Failure
                  "A model.cto file is required. Try the --model flag or create a model.cto file."))
  /\ (accepted existsSync input = true ->
      accepted existsSync model = true ->
      exists argv' : gmap string argval,
        outcome = Returns argv'
        /\ get argv' "input" = input
        /\ get argv' "model" = model
        /\ (forall other : string,
              other <> "input" -> other <> "model" ->
              get argv' other = get argv other)).
Proof.
  intros input model outcome. subst outcome.
  unfold validateValidateArgs.
  rewrite (setDefaultFileArg_unfold argv "input" "input.json"). cbv zeta.
  match goal with
  | |- context [accepted existsSync (get ?m "input")] => set (argv1 := m)
  end.
  assert (Hinput1 : get argv1 "input" = input).
  { subst argv1 input. rewrite get_if_insert.
    by destruct (truthy (get argv "input")). }
  assert (Hmodel1 : get argv1 "model" = get argv "model")
    by (subst argv1; by apply get_if_insert_other).
  rewrite Hinput1.
  destruct (accepted existsSync input) eqn:Hinput;
    [|split; [reflexivity|split; discriminate]].
  rewrite (setDefaultFileArg_unfold argv1 "model" "model.cto"). cbv zeta.
  match goal with
  | |- context [accepted existsSync (get ?m "model")] => set (argv2 := m)
  end.
  assert (Hmodel2 : get argv2 "model" = model).
  { subst argv2 model. rewrite get_if_insert, Hmodel1.
    by destruct (truthy (get argv "model")). }
  assert (Hinput2 : get argv2 "input" = input).
  { rewrite <- Hinput1. subst argv2. by apply get_if_insert_other. }
  rewrite Hmodel2.
  destruct (accepted existsSync model) eqn:Hmodel;
    [|split; [discriminate|split; [reflexivity|discriminate]]].
  split; [discriminate|]. split; [discriminate|]. intros _ _.
  exists argv2. split; [by destruct (truthy (get argv2 "verbose"))|].
  split; [exact Hinput2|]. split; [exact Hmodel2|].
  intros other Hi Hm. subst argv2 argv1.
  by rewrite !get_if_insert_other.
Qed.

End Commands.

Section Compile.
Variable Failure : Type.
Variables ModelManager ModelFile FileWriter Options : Type.
Variable loadModelManager :
  list string -> Options -> result Failure ModelManager.
Variable getModelFiles : ModelManager -> list ModelFile.
Variable toMetaModel : ModelFile -> result Failure string.
Variable newFileWriter : string -> result Failure FileWriter.
Variable accept :
  ModelManager -> Visitor -> FileWriter -> result Failure unit.

Lemma visitorFor_unrecognised (target : string) :
  ~ In target targets ->
  String.eqb target "metamodel" = false /\ visitorFor target = None.
Proof.
  unfold targets, visitorFor. simpl. intros Hout.
  repeat match goal with
         | |- context [String.eqb target ?k] =>
             destruct (String.eqb_spec target k)
         end; try (exfalso; intuition congruence); split; reflexivity.
Qed.

Lemma visitorFor_recognised (target : string) :
  In target targets -> target <> "metamodel" ->
  String.eqb target "metamodel" = false
  /\ exists visitor, visitorFor target = Some visitor.
Proof.
  unfold targets. simpl. intros Hin Hne.
  destruct (String.eqb_spec target "metamodel"); [contradiction|].
  split; [reflexivity|].
  destruct Hin as [<-|[<-|[<-|[<-|[<-|[<-|[<-|[<-|[]]]]]]]]];
    try contradiction; eexists; reflexivity.
Qed.

(** X25. [compile] loads the models before it looks at the target, so a
    loader that fails makes every call fail. Once the models are loaded, a
    target that is none of the eight gives the text
    [Unrecognized target: ...] as a result (it does not throw, and neither
    the file writer nor a visitor is used); for one of the seven code
    targets the only result is the text [Compiled to ... in '...'.], and
    it is returned exactly when the file writer is created and the traversal
    returns; for [metamodel] the result is the metamodel of the first model
    file alone, and a manager without model files gives a [TypeError]. *)
Theorem compile_outcome (target : string) (ctoFiles : list string)
    (output : string) (options : Options) :
  let outcome :=
    compile Failure ModelManager ModelFile FileWriter Options loadModelManager
      getModelFiles toMetaModel newFileWriter accept target ctoFiles output
      options in
  (forall e, loadModelManager ctoFiles options = Throws e ->
             outcome = Throws e)
  /\ (forall modelManager,
        loadModelManager ctoFiles options = Returns modelManager ->
        (~ In target targets ->
         outcome = Returns ("Unrecognized target: " +:+ target))
        /\ (In target targets -> target <> "metamodel" ->
            (forall text, outcome = Returns text ->
               text = "Compiled to " +:+ target +:+ " in '" +:+ output
                      +:+ "'.")
            /\ ((exists text, outcome = Returns text) <->
                exists visitor fileWriter,
                  visitorFor target = Some visitor
                  /\ newFileWriter output = Returns fileWriter
                  /\ accept modelManager visitor fileWriter = Returns tt))
        /\ (target = "metamodel" ->
            outcome =
              match getModelFiles modelManager with
              | first :: _ => toMetaModel first
              | [] => Throws (TypeError Failure "toMetaModel")
              end)).
Proof.
  intros outcome. subst outcome. unfold compile. split.
  - intros e ->. reflexivity.
  - intros modelManager ->. simpl. split_and!.
    + intros [-> ->]%visitorFor_unrecognised. reflexivity.
    + intros Hin Hne.
      destruct (visitorFor_recognised target Hin Hne) as (-> & visitor & ->).
      destruct (newFileWriter output) as [fileWriter|e] eqn:Hwriter; simpl.
      * destruct (accept modelManager visitor fileWriter) as [[]|e]
          eqn:Haccept; simpl; split.
        -- intros text [= <-]. reflexivity.
        -- split; [|intros _; eexists; reflexivity].
           intros _. exists visitor, fileWriter. split_and!; done.
        -- discriminate.
        -- split; [intros [text Htext]; discriminate Htext|].
           intros (v & fw & [= <-] & [= <-] & Hfw). congruence.
      * split; [discriminate|].
        split; [intros [text Htext]; discriminate Htext|].
        intros (v & fw & _ & Hfw & _). discriminate Hfw.
    + intros ->. reflexivity.
Qed.

End Compile.

(** *** The samples *)

(** No [--model] is given and [/work/model.cto] exists. *)
Lemma setDefaultFileArg_outcome_witness :
  exists argv' : gmap string argval,
    (setDefaultFileArg sampleFiles string ∅ "model" "model.cto"
       (fun _ argDefaultName => arg_array [sampleResolve argDefaultName])).2
    = Returns argv'.
Proof.
  destruct (setDefaultFileArg_outcome sampleFiles string ∅ "model" "model.cto"
              (fun _ argDefaultName => arg_array [sampleResolve argDefaultName]))
    as [Hreturns _].
  apply Hreturns. simpl. repeat constructor.
Defined.

Lemma setDefaultFileArg_defaulting_witness :
  get (<["model" := arg_array ["/work/model.cto"]]>
         ({[ "verbose" := arg_bool true ]} : gmap string argval)) "verbose"
  = arg_bool true.
Proof.
  assert (Hrun :
    setDefaultFileArg sampleFiles string {[ "verbose" := arg_bool true ]}
      "model" "model.cto"
      (fun _ argDefaultName => arg_array [sampleResolve argDefaultName])
    = (["Loading a default model.cto file."],
       Returns (<["model" := arg_array ["/work/model.cto"]]>
                  {[ "verbose" := arg_bool true ]})))
    by (vm_compute; reflexivity).
  destruct (setDefaultFileArg_defaulting sampleFiles string _ _ _ _ _ _ Hrun)
    as (Hothers & _).
  rewrite Hothers; [reflexivity|discriminate].
Defined.

(** With no argument at all both defaults are used; with an input that does
    not exist the error is about the input. *)
Lemma validateValidateArgs_outcome_witness :
  (exists argv' : gmap string argval,
     (validateValidateArgs sampleFiles sampleResolve string ∅).2
     = Returns argv'
     /\ get argv' "input" = arg_string "/work/input.json"
     /\ get argv' "model" = arg_array ["/work/model.cto"])
  /\ (validateValidateArgs sampleFiles sampleResolve string
        {[ "input" := arg_string "/tmp/missing.json" ]}).2
     = Throws (Error string
                 "A input.json file is required. Try the --input flag or create a input.json file.").
Proof.
  split.
  - destruct (validateValidateArgs_outcome sampleFiles sampleResolve string ∅)
      as (_ & _ & Hboth).
    destruct (Hboth eq_refl eq_refl) as (argv' & Hrun & Hinput & Hmodel & _).
    exists argv'. split; [exact Hrun|]. split; [exact Hinput|exact Hmodel].
  - destruct (validateValidateArgs_outcome sampleFiles sampleResolve string
                {[ "input" := arg_string "/tmp/missing.json" ]})
      as (Hinput & _).
    apply Hinput. reflexivity.
Defined.

(** An unknown target gives a text; with no model the loader's failure
    comes first. *)
Lemma compile_outcome_witness :
  compile string (list string) string string unit sampleLoad
    (fun modelManager => modelManager) (fun modelFile => Returns modelFile)
    (fun output => Returns output) (fun _ _ _ => Returns tt)
    "Rust" ["person.cto"] "out" tt
  = Returns "Unrecognized target: Rust"
  /\ compile string (list string) string string unit sampleLoad
       (fun modelManager => modelManager) (fun modelFile => Returns modelFile)
       (fun output => Returns output) (fun _ _ _ => Returns tt)
       "Rust" [] "out" tt
     = Throws (Raised string "no model").
Proof.
  split.
  - destruct (compile_outcome string (list string) string string unit
                sampleLoad (fun modelManager => modelManager)
                (fun modelFile => Returns modelFile)
                (fun output => Returns output) (fun _ _ _ => Returns tt)
                "Rust" ["person.cto"] "out" tt) as (_ & Hloaded).
    destruct (Hloaded ["person.cto"] eq_refl) as (Hunknown & _).
    apply Hunknown. simpl. intros H.
    repeat (destruct H as [H|H]; [discriminate H|]). exact H.
  - destruct (compile_outcome string (list string) string string unit
                sampleLoad (fun modelManager => modelManager)
                (fun modelFile => Returns modelFile)
                (fun output => Returns output) (fun _ _ _ => Returns tt)
                "Rust" [] "out" tt) as (Hfail & _).
    apply Hfail. reflexivity.
Defined.

End CommandsFacts.
